(** * TechSuportBackend: a shallow embedding of [backend/server.js]

    The source file holds two variants of the same Express server.  The
    first (lines 2-299) validates its environment, hashes passwords with
    bcrypt and guards every route with presence checks; the second
    (lines 300-455) falls back to a default signing secret, stores the
    password as given and leaves validation to the mongoose schemas.
    They are embedded as the modules [V1] and [V2].

    Conventions of the embedding:
    - a JSON body field is modelled at its schema type: [option string]
      for a string ([None] when the key is missing), [option Z] for the
      number [rating];
    - a handler is a function from the store, the request and the
      values the environment supplies (clock, salt, fresh ObjectId) to a
      response and the store afterwards;
    - [try { ... } catch] is an error monad run by [try_catch];
    - bcryptjs, jsonwebtoken and the mongoose casters are interfaces
      (type classes); the handlers are generic in them;
    - where a type check of a library decides the answer (a password
      that is not a string, an id that is not an ObjectId), the modules
      [DynV1] and [DynV2] take the values as they arrive. *)

From Stdlib Require Import String Ascii HexString List ZArith Lia Bool.
From Stdlib Require Import Permutation Sorted DecimalString.
Import ListNotations.

Local Open Scope string_scope.
Local Open Scope Z_scope.

(** ** JavaScript values and strings *)

(** Truthiness of a string-typed field: [undefined] and [""] are falsy. *)
Definition truthy (v : option string) : bool :=
  match v with
  | Some s => negb (String.eqb s "")
  | None => false
  end.

(** Truthiness of a number-typed field: [undefined] and [0] are falsy. *)
Definition truthy_num (v : option Z) : bool :=
  match v with
  | Some n => negb (n =? 0)
  | None => false
  end.

(** [process.env.X || d] *)
Definition or_default (v : option string) (d : string) : string :=
  if truthy v then match v with Some s => s | None => d end else d.

Definition is_lower (a : ascii) : bool :=
  ((97 <=? nat_of_ascii a) && (nat_of_ascii a <=? 122))%nat.

Definition is_upper (a : ascii) : bool :=
  ((65 <=? nat_of_ascii a) && (nat_of_ascii a <=? 90))%nat.

Definition upper_char (a : ascii) : ascii :=
  if is_lower a then ascii_of_nat (nat_of_ascii a - 32) else a.

Definition lower_char (a : ascii) : ascii :=
  if is_upper a then ascii_of_nat (nat_of_ascii a + 32) else a.

Fixpoint map_string (f : ascii -> ascii) (s : string) : string :=
  match s with
  | EmptyString => EmptyString
  | String a r => String (f a) (map_string f r)
  end.

(** [s.toUpperCase()] and [s.toLowerCase()] on ASCII text. *)
Definition toUpperCase : string -> string := map_string upper_char.
Definition toLowerCase : string -> string := map_string lower_char.

(** [s.charAt(0)]: the empty string when [s] is empty. *)
Definition charAt0 (s : string) : string :=
  match s with
  | EmptyString => EmptyString
  | String a _ => String a EmptyString
  end.

(** [s.slice(1)] *)
Definition slice1 (s : string) : string :=
  match s with
  | EmptyString => EmptyString
  | String _ r => r
  end.

(** [s.split(c)] for a one-character separator: never the empty list,
    [""] splits to [[""]]. *)
Fixpoint split (c : ascii) (s : string) : list string :=
  match s with
  | EmptyString => [EmptyString]
  | String a r =>
      if Ascii.eqb a c then EmptyString :: split c r
      else match split c r with
           | h :: t => String a h :: t
           | [] => [String a EmptyString]
           end
  end.

(** [arr.includes(x)] on an array of strings. *)
Definition includes (l : list string) (x : string) : bool :=
  existsb (String.eqb x) l.

Fixpoint no_space (s : string) : bool :=
  match s with
  | EmptyString => true
  | String a r => negb (Ascii.eqb a " ") && no_space r
  end.

(** ** Responses *)

Definition ObjectId := string.

(** A user document without its password: [.select("-password")], and
    the [user] object of the login response. *)
Record PublicUser := mkPublicUser {
  pu_id : ObjectId;
  pu_name : option string;
  pu_email : option string
}.

Record Review := mkReview {
  rv_id : ObjectId;
  rv_userId : ObjectId;
  rv_userName : string;
  rv_problemDate : Z;
  rv_problemDescription : string;
  rv_toolsUsed : string;
  rv_rating : Z;
  rv_comment : string;
  rv_date : Z
}.

(** What a JSON response carries besides [success] and [message]. *)
Inductive Data :=
| NoData
| ErrorText (e : string)
| Session (token : string) (user : PublicUser)
| Account (user : PublicUser)
| OneReview (r : Review)
| Reviews (l : list Review).

Record Response := mkResponse {
  status : Z;
  success : bool;
  message : option string;
  data : Data
}.

(** [res.status(c).json({ success: false, message: m })] *)
Definition failure (c : Z) (m : string) : Response :=
  mkResponse c false (Some m) NoData.

(** [res.status(c).json({ success: true, message: m })] *)
Definition ok (c : Z) (m : string) : Response :=
  mkResponse c true (Some m) NoData.

(** ** The document store *)

Record User := mkUser {
  u_id : ObjectId;
  u_name : option string;
  u_email : option string;
  u_password : option string
}.

Record Problem := mkProblem {
  pb_id : ObjectId;
  pb_title : string;
  pb_description : string;
  pb_category : string;
  pb_urgency : string;
  pb_createdAt : Z
}.

Record Store := mkStore {
  users : list User;
  problems : list Problem;
  reviews : list Review
}.

Definition empty_store : Store := mkStore [] [] [].

Definition public (u : User) : PublicUser :=
  mkPublicUser (u_id u) (u_name u) (u_email u).

Definition opt_eqb (a b : option string) : bool :=
  match a, b with
  | Some x, Some y => String.eqb x y
  | None, None => true
  | _, _ => false
  end.

(** [User.findOne({ email })]: the first document whose email is the
    given one (a missing key matches documents without the field). *)
Definition findOne_email (st : Store) (email : option string) : option User :=
  find (fun u => opt_eqb (u_email u) email) (users st).

(** [User.findOne({ email, password })] *)
Definition findOne_email_password (st : Store) (email password : option string)
  : option User :=
  find (fun u => opt_eqb (u_email u) email && opt_eqb (u_password u) password)
       (users st).

(** [User.findById(id)] *)
Definition findById (st : Store) (id : ObjectId) : option User :=
  find (fun u => String.eqb (u_id u) id) (users st).

(** The number of accounts with a given identity. *)
Definition count_email (st : Store) (email : option string) : nat :=
  length (filter (fun u => opt_eqb (u_email u) email) (users st)).

(** ** Exceptions *)

(** A computation that returns or throws an error with a message. *)
Definition Exn (A : Type) : Type := (string + A)%type.

Definition ret {A} (a : A) : Exn A := inr a.
Definition throw {A} (e : string) : Exn A := inl e.
Definition bind {A B} (m : Exn A) (k : A -> Exn B) : Exn B :=
  match m with
  | inl e => inl e
  | inr a => k a
  end.

Notation "'let*' x ':=' m 'in' k" := (bind m (fun x => k))
  (at level 10, x pattern, m at level 100, k at level 200).

(** [try { body } catch (error) { handler(error) }]: every handler of
    the server writes at most once, as its last effect, so a thrown
    error leaves the store as it was. *)
Definition try_catch (st : Store) (body : Exn (Response * Store))
    (handler : string -> Response) : Response * Store :=
  match body with
  | inr r => r
  | inl e => (handler e, st)
  end.

(** What the environment supplies to one request. *)
Record Env := mkEnv {
  now_ms : Z;          (* Date.now() *)
  salt : string;       (* the salt bcrypt.hash draws *)
  fresh_id : ObjectId  (* the _id mongoose gives a new document *)
}.

(** ** Library interfaces *)

(** bcryptjs: [hash(s, rounds)] draws a salt and returns the hash
    string; [compare(s, h)] recomputes with the salt kept in [h]. *)
Class Bcrypt := {
  bcrypt_hash : string -> Z -> string -> string;
  bcrypt_compare : string -> string -> bool
}.

Class BcryptLaws `{Bcrypt} := {
  compare_hash : forall s rounds slt,
    bcrypt_compare s (bcrypt_hash s rounds slt) = true
}.

(** Every stored password is a bcrypt hash at cost 10. *)
Definition all_hashed `{Bcrypt} (st : Store) : Prop :=
  Forall (fun u => exists s slt, u_password u = Some (bcrypt_hash s 10 slt))
         (users st).

(** The mongoose casters the Review schema needs. *)
Class Mongoose := {
  cast_objectid : string -> option ObjectId;
  cast_date : string -> option Z
}.

(** The payload of a session token. *)
Record Payload := mkPayload {
  p_userId : ObjectId;
  p_email : option string;
  p_iat : Z;
  p_exp : Z
}.

(** jsonwebtoken's primitives: the keyed MAC (HS256) and the compact
    serialization of a payload with its signature. *)
Class Jwt := {
  hmac : string -> Payload -> string;
  tok_encode : Payload -> string -> string;
  tok_decode : string -> option (Payload * string)
}.

Class JwtLaws `{Jwt} := {
  decode_encode : forall p sg, tok_decode (tok_encode p sg) = Some (p, sg);
  encode_no_space : forall p sg, no_space (tok_encode p sg) = true;
  encode_nonempty : forall p sg, tok_encode p sg <> ""
}.

Inductive JwtError :=
| JsonWebTokenError (msg : string)
| TokenExpiredError.

Section JsonWebToken.
Context `{Jwt}.

(** Modelled from the spec: jsonwebtoken's [sign] is not in src.  The
    payload is the claims with [iat] and [exp = iat + expiresIn],
    signed with the secret; the clock is in seconds. *)
Definition jwt_sign (userId : ObjectId) (email : option string)
    (secret : string) (clock expiresIn : Z) : string :=
  let p := mkPayload userId email clock (clock + expiresIn) in
  tok_encode p (hmac secret p).

(** Modelled from the spec: jsonwebtoken's [verify] is not in src.  It
    parses, checks the signature first, then the expiry, and returns
    the decoded payload otherwise. *)
Definition jwt_verify (token secret : string) (clock : Z)
  : JwtError + Payload :=
  match tok_decode token with
  | None => inl (JsonWebTokenError "jwt malformed")
  | Some (p, sg) =>
      if String.eqb sg (hmac secret p) then
        if p_exp p <=? clock then inl TokenExpiredError else inr p
      else inl (JsonWebTokenError "invalid signature")
  end.
End JsonWebToken.

(** [expiresIn: "24h"], in seconds. *)
Definition expiresIn_24h : Z := 24 * 60 * 60.

(** [Math.floor(Date.now() / 1000)] *)
Definition clock_s (e : Env) : Z := now_ms e / 1000.

(** ** Configuration and startup *)

Record ProcessEnv := mkProcessEnv {
  JWT_SECRET : option string;
  MONGO_URI : option string;
  PORT : option string
}.

Record Config := mkConfig {
  cfg_secret : string;
  cfg_mongo_uri : string;
  cfg_port : string
}.

Inductive Startup :=
| Exit (code : Z)            (* process.exit(code) *)
| Uncaught (error : string)  (* a throw at top level *)
| Listening (c : Config).    (* app.listen(PORT) is reached *)

(** ** Requests *)

Record RegisterBody := mkRegisterBody {
  rg_name : option string;
  rg_email : option string;
  rg_password : option string
}.

Record LoginBody := mkLoginBody {
  lg_email : option string;
  lg_password : option string
}.

Record ProblemBody := mkProblemBody {
  pr_title : option string;
  pr_description : option string;
  pr_category : option string;
  pr_urgency : option string
}.

Record ReviewBody := mkReviewBody {
  rb_userId : option string;
  rb_userName : option string;
  rb_rating : option Z;
  rb_comment : option string;
  rb_problemDate : option string;
  rb_problemDescription : option string;
  rb_toolsUsed : option string
}.

(** ** Schemas and queries shared by the two variants *)

(** [urgency.charAt(0).toUpperCase() + urgency.slice(1).toLowerCase()] *)
Definition normalizeUrgency (urgency : string) : string :=
  toUpperCase (charAt0 urgency) ++ toLowerCase (slice1 urgency).

Definition validUrgencies : list string := ["Baja"; "Media"; "Alta"].

(** [new Problem({...}).save()]: every path of ProblemSchema is
    required and [urgency] is an enum; [createdAt] defaults to
    [Date.now]. *)
Definition save_problem (st : Store) (e : Env)
    (title description category urgency : option string) : Exn Store :=
  match title, description, category, urgency with
  | Some t, Some d, Some c, Some u =>
      if truthy title && truthy description && truthy category
         && includes validUrgencies u
      then ret (mkStore (users st)
                  (problems st ++ [mkProblem (fresh_id e) t d c u (now_ms e)])
                  (reviews st))
      else throw "Problem validation failed"
  | _, _, _, _ => throw "Problem validation failed"
  end.

(** [new Review({...}).save()]: every path of ReviewSchema is required,
    [userId] is cast to an ObjectId and [problemDate] to a Date,
    [rating] lies between [min: 1] and [max: 5]; [date] defaults to
    [Date.now].  Returns the saved document with the store. *)
Definition save_review `{Mongoose} (st : Store) (e : Env) (b : ReviewBody)
  : Exn (Review * Store) :=
  match rb_userId b, rb_userName b, rb_rating b, rb_comment b,
        rb_problemDate b, rb_problemDescription b, rb_toolsUsed b with
  | Some uid, Some un, Some r, Some c, Some pd, Some pdesc, Some tu =>
      match cast_objectid uid, cast_date pd with
      | Some oid, Some d =>
          if truthy (rb_userName b) && truthy (rb_comment b)
             && truthy (rb_problemDescription b) && truthy (rb_toolsUsed b)
             && (1 <=? r) && (r <=? 5)
          then let rv := mkReview (fresh_id e) oid un d pdesc tu r c (now_ms e) in
               ret (rv, mkStore (users st) (problems st) (reviews st ++ [rv]))
          else throw "Review validation failed"
      | _, _ => throw "Review validation failed"
      end
  | _, _, _, _, _, _, _ => throw "Review validation failed"
  end.

(** [Review.find().sort({ date: -1 })]: every document, the latest
    first.  The sort is an insertion sort on [date]. *)
Fixpoint insert_desc (r : Review) (l : list Review) : list Review :=
  match l with
  | [] => [r]
  | x :: t => if rv_date x <=? rv_date r then r :: x :: t
              else x :: insert_desc r t
  end.

Fixpoint sort_date_desc (l : list Review) : list Review :=
  match l with
  | [] => []
  | r :: t => insert_desc r (sort_date_desc t)
  end.

(** [a] is not earlier than [b]. *)
Definition date_ge (a b : Review) : Prop := rv_date b <= rv_date a.

Definition find_reviews_sorted (st : Store) : list Review :=
  sort_date_desc (reviews st).

Definition add_user (st : Store) (u : User) : Store :=
  mkStore (users st ++ [u]) (problems st) (reviews st).

(** The outcome of a middleware: a response, or [next()] with
    [req.user] set. *)
Inductive Middleware :=
| Reject (r : Response)
| Next (user : Payload).

(** ** Variant 1 (lines 2-299) *)

Module V1.

(** Lines 20-28: [JWT_SECRET] and [MONGO_URI] are validated, [PORT]
    defaults to 3000. *)
Definition startup (env : ProcessEnv) : Startup :=
  if negb (truthy (JWT_SECRET env)) || negb (truthy (MONGO_URI env))
  then Exit 1
  else Listening (mkConfig (or_default (JWT_SECRET env) "")
                           (or_default (MONGO_URI env) "")
                           (or_default (PORT env) "3000")).

Section Handlers.
Context `{Bcrypt} `{Jwt} `{Mongoose}.
Variable cfg : Config.

(** [bcrypt.hash(password, 10)]: rejects when the first argument is
    not a string. *)
Definition hash_password (password : option string) (e : Env)
  : Exn string :=
  match password with
  | Some s => ret (bcrypt_hash s 10 (salt e))
  | None => throw "Illegal arguments: undefined, number"
  end.

(** [bcrypt.compare(password, user.password)]: rejects unless both
    arguments are strings. *)
Definition compare_password (password stored : option string)
  : Exn bool :=
  match password, stored with
  | Some s, Some h => ret (bcrypt_compare s h)
  | _, _ => throw "Illegal arguments"
  end.

(** [user.save()] under the schema of lines 39-43: [email] carries
    a unique index. *)
Definition save_user (st : Store) (u : User) : Exn Store :=
  if existsb (fun v => opt_eqb (u_email v) (u_email u)) (users st)
  then throw "E11000 duplicate key error"
  else ret (add_user st u).

(** Lines 68-83. *)
Definition authenticateToken (authorization : option string) (e : Env)
  : Middleware :=
  let token :=
    if truthy authorization then
      match authorization with
      | Some h => nth_error (split " " h) 1
      | None => None
      end
    else authorization in
  if negb (truthy token) then Reject (failure 401 "Token requerido")
  else
    match token with
    | Some t =>
        match jwt_verify t (cfg_secret cfg) (clock_s e) with
        | inl _ => Reject (failure 403 "Token inválido")
        | inr user => Next user
        end
    | None => Reject (failure 401 "Token requerido")
    end.

(** Lines 86-124. *)
Definition register (st : Store) (b : RegisterBody) (e : Env)
  : Response * Store :=
  try_catch st
    (if negb (truthy (rg_name b)) || negb (truthy (rg_email b))
        || negb (truthy (rg_password b))
     then ret (failure 400 "Nombre, email y contraseña son requeridos", st)
     else
       match findOne_email st (rg_email b) with
       | Some _ => ret (failure 400 "El usuario ya existe", st)
       | None =>
           let* hashedPassword := hash_password (rg_password b) e in
           let user := mkUser (fresh_id e) (rg_name b) (rg_email b)
                              (Some hashedPassword) in
           let* st' := save_user st user in
           ret (ok 201 "Usuario registrado con éxito", st')
       end)
    (fun _ => failure 500 "Error interno del servidor").

(** Lines 127-177. *)
Definition login (st : Store) (b : LoginBody) (e : Env)
  : Response * Store :=
  try_catch st
    (if negb (truthy (lg_email b)) || negb (truthy (lg_password b))
     then ret (failure 400 "Email y contraseña son requeridos", st)
     else
       match findOne_email st (lg_email b) with
       | None => ret (failure 401 "Credenciales inválidas", st)
       | Some user =>
           let* isPasswordValid :=
             compare_password (lg_password b) (u_password user) in
           if negb isPasswordValid
           then ret (failure 401 "Credenciales inválidas", st)
           else
             let token := jwt_sign (u_id user) (u_email user)
                            (cfg_secret cfg) (clock_s e) expiresIn_24h in
             ret (mkResponse 200 true (Some "Login exitoso")
                    (Session token (public user)), st)
       end)
    (fun _ => failure 500 "Error interno del servidor").

(** Lines 189-202, behind [authenticateToken]. *)
Definition verify (st : Store) (authorization : option string) (e : Env)
  : Response * Store :=
  match authenticateToken authorization e with
  | Reject r => (r, st)
  | Next user =>
      try_catch st
        (match findById st (p_userId user) with
         | None => ret (failure 404 "Usuario no encontrado", st)
         | Some u => ret (mkResponse 200 true None (Account (public u)), st)
         end)
        (fun _ => failure 401 "Token inválido")
  end.

(** Lines 205-244. *)
Definition createProblem (st : Store) (b : ProblemBody) (e : Env)
  : Response * Store :=
  try_catch st
    (if negb (truthy (pr_title b)) || negb (truthy (pr_description b))
        || negb (truthy (pr_category b)) || negb (truthy (pr_urgency b))
     then ret (failure 400 "Todos los campos son requeridos", st)
     else
       match pr_urgency b with
       | None => throw "TypeError: Cannot read properties of undefined"
       | Some urgency =>
           let normalizedUrgency := normalizeUrgency urgency in
           if negb (includes validUrgencies normalizedUrgency)
           then ret (failure 400 "Nivel de urgencia no válido", st)
           else
             let* st' := save_problem st e (pr_title b) (pr_description b)
                           (pr_category b) (Some normalizedUrgency) in
             ret (ok 201 "Problema guardado exitosamente", st')
       end)
    (fun _ => failure 500 "No se pudo guardar el problema").

(** Lines 247-281. *)
Definition createReview (st : Store) (b : ReviewBody) (e : Env)
  : Response * Store :=
  try_catch st
    (if negb (truthy (rb_userId b)) || negb (truthy (rb_userName b))
        || negb (truthy_num (rb_rating b)) || negb (truthy (rb_comment b))
        || negb (truthy (rb_problemDate b))
        || negb (truthy (rb_problemDescription b))
        || negb (truthy (rb_toolsUsed b))
     then ret (failure 400 "Faltan campos requeridos", st)
     else
       let* (review, st') := save_review st e b in
       ret (mkResponse 201 true (Some "Reseña creada con éxito")
              (OneReview review), st'))
    (fun error => mkResponse 500 false (Some "Error al crear reseña")
                    (ErrorText error)).

(** Lines 284-295. *)
Definition listReviews (st : Store) : Response * Store :=
  try_catch st
    (ret (mkResponse 200 true None (Reviews (find_reviews_sorted st)), st))
    (fun error => mkResponse 500 false (Some "Error al obtener reseñas")
                    (ErrorText error)).
End Handlers.

End V1.

(** ** Variant 2 (lines 300-455) *)

Module V2.

(** Lines 311-318: [JWT_SECRET] falls back to a constant, a missing
    [MONGO_URI] throws at top level. *)
Definition startup (env : ProcessEnv) : Startup :=
  let secret := or_default (JWT_SECRET env) "fallback_secret" in
  if negb (truthy (MONGO_URI env))
  then Uncaught "❌ ERROR: La variable MONGO_URI no está configurada."
  else Listening (mkConfig secret (or_default (MONGO_URI env) "")
                           (or_default (PORT env) "3000")).

Section Handlers.
Context `{Jwt}.
Variable cfg : Config.

(** Lines 356-371: the schema of lines 327-331 has no index and no
    validator, [save] appends. *)
Definition register (st : Store) (b : RegisterBody) (e : Env)
  : Response * Store :=
  try_catch st
    (match findOne_email st (rg_email b) with
     | Some _ => ret (failure 400 "El usuario ya existe", st)
     | None =>
         let user := mkUser (fresh_id e) (rg_name b) (rg_email b)
                            (rg_password b) in
         ret (ok 200 "Usuario registrado con éxito", add_user st user)
     end)
    (fun error => mkResponse 500 false None (ErrorText error)).

(** Lines 373-396. *)
Definition login (st : Store) (b : LoginBody) (e : Env)
  : Response * Store :=
  try_catch st
    (match findOne_email_password st (lg_email b) (lg_password b) with
     | None => ret (failure 401 "Credenciales inválidas", st)
     | Some user =>
         let token := jwt_sign (u_id user) (u_email user)
                        (cfg_secret cfg) (clock_s e) expiresIn_24h in
         ret (mkResponse 200 true (Some "Login exitoso")
                (Session token (public user)), st)
     end)
    (fun _ => failure 500 "Error interno del servidor").

(** [jwt.verify(token, JWT_SECRET)] without a callback throws. *)
Definition verify_or_throw (token : string) (e : Env) : Exn Payload :=
  match jwt_verify token (cfg_secret cfg) (clock_s e) with
  | inl (JsonWebTokenError m) => throw m
  | inl TokenExpiredError => throw "jwt expired"
  | inr p => ret p
  end.

(** Lines 398-411. *)
Definition verify (st : Store) (authorization : option string) (e : Env)
  : Response * Store :=
  try_catch st
    (let token :=
       match authorization with
       | Some h => nth_error (split " " h) 1
       | None => None
       end in
     if negb (truthy token) then ret (failure 401 "Token requerido", st)
     else
       match token with
       | None => ret (failure 401 "Token requerido", st)
       | Some t =>
           let* decoded := verify_or_throw t e in
           match findById st (p_userId decoded) with
           | None => ret (failure 404 "Usuario no encontrado", st)
           | Some u =>
               ret (mkResponse 200 true None (Account (public u)), st)
           end
       end)
    (fun _ => failure 401 "Token inválido").

(** Lines 413-432: no presence check and no enum check before
    [save]. *)
Definition createProblem (st : Store) (b : ProblemBody) (e : Env)
  : Response * Store :=
  try_catch st
    (match pr_urgency b with
     | None => throw "TypeError: Cannot read properties of undefined"
     | Some urgency =>
         let normalizedUrgency := normalizeUrgency urgency in
         let* st' := save_problem st e (pr_title b) (pr_description b)
                       (pr_category b) (Some normalizedUrgency) in
         ret (ok 201 "Problema guardado exitosamente", st')
     end)
    (fun _ => failure 500 "No se pudo guardar el problema").

(** Lines 445-452. *)
Definition listReviews (st : Store) : Response * Store :=
  try_catch st
    (ret (mkResponse 200 true None (Reviews (find_reviews_sorted st)), st))
    (fun _ => failure 500 "Error al obtener reseñas").
End Handlers.

End V2.

(** ** Reference implementations of the library interfaces

    In-memory stand-ins with no cryptographic strength: they exist to
    run the handlers on concrete requests.  A string travels as the
    bits of its characters followed by a dot. *)

Module Ref.

Definition bitchar (b : bool) : ascii := if b then "1"%char else "0"%char.
Definition charbit (c : ascii) : bool := Ascii.eqb c "1".

Definition put_char (a : ascii) (k : string) : string :=
  match a with
  | Ascii b0 b1 b2 b3 b4 b5 b6 b7 =>
      String (bitchar b0) (String (bitchar b1) (String (bitchar b2)
     (String (bitchar b3) (String (bitchar b4) (String (bitchar b5)
     (String (bitchar b6) (String (bitchar b7) k)))))))
  end.

(** Writes the field [s] in front of [k]. *)
Fixpoint put_field (s k : string) : string :=
  match s with
  | EmptyString => String "." k
  | String a r => put_char a (put_field r k)
  end.

(** Reads one field and returns it with the rest of the input. *)
Fixpoint get_field (s : string) : option (string * string) :=
  match s with
  | EmptyString => None
  | String c0 r0 =>
      if Ascii.eqb c0 "." then Some (EmptyString, r0)
      else
        match r0 with
        | String c1 (String c2 (String c3 (String c4 (String c5
            (String c6 (String c7 r)))))) =>
            match get_field r with
            | Some (f, k) =>
                Some (String (Ascii (charbit c0) (charbit c1) (charbit c2)
                                (charbit c3) (charbit c4) (charbit c5)
                                (charbit c6) (charbit c7)) f, k)
            | None => None
            end
        | _ => None
        end
  end.

Definition put_opt (o : option string) (k : string) : string :=
  match o with
  | Some s => put_field "S" (put_field s k)
  | None => put_field "N" k
  end.

Definition get_opt (s : string) : option (option string * string) :=
  match get_field s with
  | Some (tag, k) =>
      if String.eqb tag "S" then
        match get_field k with
        | Some (v, k') => Some (Some v, k')
        | None => None
        end
      else if String.eqb tag "N" then Some (None, k)
      else None
  | None => None
  end.

Definition encode (p : Payload) (sg : string) : string :=
  put_field sg
    (put_field (p_userId p)
       (put_opt (p_email p)
          (put_field (HexString.of_Z (p_iat p))
             (put_field (HexString.of_Z (p_exp p)) EmptyString)))).

Definition decode (s : string) : option (Payload * string) :=
  match get_field s with
  | Some (sg, s1) =>
      match get_field s1 with
      | Some (uid, s2) =>
          match get_opt s2 with
          | Some (em, s3) =>
              match get_field s3 with
              | Some (iat, s4) =>
                  match get_field s4 with
                  | Some (exp, EmptyString) =>
                      Some (mkPayload uid em (HexString.to_Z iat)
                              (HexString.to_Z exp), sg)
                  | _ => None
                  end
              | None => None
              end
          | None => None
          end
      | None => None
      end
  | None => None
  end.

Definition mac (key : string) (p : Payload) : string :=
  key ++ "/" ++ p_userId p ++ "/" ++ HexString.of_Z (p_exp p).

#[export] Instance jwt : Jwt := {|
  hmac := mac;
  tok_encode := encode;
  tok_decode := decode
|}.

Fixpoint poly (s : string) (acc : N) : N :=
  match s with
  | EmptyString => acc
  | String a r => poly r (acc * 31 + N_of_ascii a)%N
  end.

Definition kdf (s slt : string) : string :=
  HexString.of_N (poly (slt ++ s) 7).

#[export] Instance bcrypt : Bcrypt := {|
  bcrypt_hash := fun s _ slt => put_field slt (kdf s slt);
  bcrypt_compare := fun s h =>
    match get_field h with
    | Some (slt, d) => String.eqb d (kdf s slt)
    | None => false
    end
|}.

#[export] Instance mongoose : Mongoose := {|
  cast_objectid := fun s =>
    if (String.length s =? 24)%nat then Some s else None;
  cast_date := fun s =>
    if String.eqb s "" then None else Some (HexString.to_Z s)
|}.

End Ref.

(** ** Sample data *)

Module Sample.

Definition cfg : Config :=
  mkConfig "s3cret" "mongodb://localhost/tech" "3000".

Definition penv : ProcessEnv :=
  mkProcessEnv (Some "s3cret") (Some "mongodb://localhost/tech") None.

(** An instant, the instant one second short of 24 hours later, and
    the instant exactly 24 hours later. *)
Definition e0 : Env := mkEnv 1700000000000 "Xy7" "65a000000000000000000001".
Definition e1 : Env := mkEnv 1700086399000 "Qq2" "65a000000000000000000002".
Definition e2 : Env := mkEnv 1700086400000 "Zz9" "65a000000000000000000003".

Definition ana : RegisterBody :=
  mkRegisterBody (Some "Ana") (Some "a@x.com") (Some "pw123").
Definition ana_again : RegisterBody :=
  mkRegisterBody (Some "Ana B") (Some "a@x.com") (Some "other").
Definition nameless : RegisterBody :=
  mkRegisterBody None (Some "b@x.com") (Some "pw123").

(** The store after Ana registered with variant 1 and the reference
    bcrypt. *)
Definition st_ana : Store :=
  mkStore [mkUser "65a000000000000000000001" (Some "Ana") (Some "a@x.com")
             (Some (bcrypt_hash (Bcrypt := Ref.bcrypt) "pw123" 10 "Xy7"))]
          [] [].

(** The same account as variant 2 keeps it. *)
Definition st_ana_plain : Store :=
  mkStore [mkUser "65a000000000000000000001" (Some "Ana") (Some "a@x.com")
             (Some "pw123")] [] [].

Definition good_login : LoginBody := mkLoginBody (Some "a@x.com") (Some "pw123").
Definition bad_login : LoginBody := mkLoginBody (Some "a@x.com") (Some "pw124").

(** The token variant 1 issues to Ana at [e0]. *)
Definition token : string :=
  jwt_sign (H := Ref.jwt) "65a000000000000000000001" (Some "a@x.com")
           "s3cret" (clock_s e0) expiresIn_24h.

(** The same payload under a signature made with another key. *)
Definition forged : string :=
  jwt_sign (H := Ref.jwt) "65a000000000000000000001" (Some "a@x.com")
           "guess" (clock_s e0) expiresIn_24h.

Definition bearer (t : string) : option string := Some ("Bearer " ++ t).

Definition urgente : ProblemBody :=
  mkProblemBody (Some "Impresora") (Some "No imprime") (Some "Hardware")
                (Some "urgente").
Definition alta : ProblemBody :=
  mkProblemBody (Some "Impresora") (Some "No imprime") (Some "Hardware")
                (Some "alta").

Definition review_zero : ReviewBody :=
  mkReviewBody (Some "65a000000000000000000001") (Some "Ana") (Some 0)
               (Some "bien") (Some "0x18bcfe56800") (Some "No imprime")
               (Some "destornillador").

End Sample.

(** ** Store invariants and runs *)

(** No two accounts share an identity. *)
Definition emails_unique (st : Store) : Prop :=
  NoDup (map u_email (users st)).

(** No two accounts share an [_id], as MongoDB guarantees. *)
Definition ids_unique (st : Store) : Prop :=
  NoDup (map u_id (users st)).

(** An account has a non-empty name and a non-empty identity. *)
Definition account_complete (u : User) : Prop :=
  truthy (u_name u) = true /\ truthy (u_email u) = true.

(** A problem report as ProblemSchema wants it. *)
Definition problem_valid (p : Problem) : Prop :=
  pb_title p <> "" /\ pb_description p <> "" /\ pb_category p <> ""
  /\ In (pb_urgency p) validUrgencies.

(** The spellings of the urgencies in lower case. *)
Definition lowerUrgencies : list string := ["baja"; "media"; "alta"].

(** A series of registration requests served one after the other by
    variant 1, each with what the environment gave it. *)
Fixpoint V1_registrations `{Bcrypt} (st : Store)
    (reqs : list (RegisterBody * Env)) : Store :=
  match reqs with
  | [] => st
  | (b, e) :: rest => V1_registrations (snd (V1.register st b e)) rest
  end.

(** Sample requests of the sections below. *)
Module More.

Definition review_three : ReviewBody :=
  mkReviewBody (Some "65a000000000000000000001") (Some "Ana") (Some 3)
               (Some "bien") (Some "0x18bcfe56800") (Some "No imprime")
               (Some "destornillador").

(** The review that [review_three] becomes at [Sample.e0], and a store
    that holds it. *)
Definition rv_old : Review :=
  mkReview "65a000000000000000000001" "65a000000000000000000001" "Ana"
           1700000000000 "No imprime" "destornillador" 3 "bien" 1700000000000.

Definition st_reviewed : Store := mkStore [] [] [rv_old].

(** The review that [review_three] becomes at [Sample.e1]. *)
Definition rv_new : Review :=
  mkReview "65a000000000000000000002" "65a000000000000000000001" "Ana"
           1700000000000 "No imprime" "destornillador" 3 "bien" 1700086399000.

Definition penv_v2 : ProcessEnv :=
  mkProcessEnv None (Some "mongodb://localhost/tech") (Some "8080").

End More.

(** ** Requests as JSON values, and the checks of the libraries

    [express.json()] hands the handlers any JSON value, and the
    libraries react to the type: [bcrypt.compare] rejects unless both
    arguments are strings, and mongoose casts what a query is given,
    [findById] failing with a CastError on a value that is not an
    ObjectId.  The modules [DynV1] and [DynV2] have the routes these
    checks decide, with the values as they arrive. *)

Inductive JsValue :=
| JUndefined
| JNull
| JBool (b : bool)
| JNum (n : Z)
| JStr (s : string)
| JObject.

(** [!!v]: objects and arrays are truthy. *)
Definition js_truthy (v : JsValue) : bool :=
  match v with
  | JUndefined | JNull => false
  | JBool b => b
  | JNum n => negb (n =? 0)
  | JStr s => negb (String.eqb s "")
  | JObject => true
  end.

(** A field of a string-typed body as the value it stands for. *)
Definition js_of_field (o : option string) : JsValue :=
  match o with
  | Some s => JStr s
  | None => JUndefined
  end.

(** How mongoose turns the value given for [email] in a filter into a
    test on the documents; it throws a CastError on a value it cannot
    cast. *)
Class FilterCast := {
  email_filter : JsValue -> Exn (User -> bool)
}.

Class FilterCastLaws `{FilterCast} := {
  email_filter_string : forall s,
    email_filter (JStr s) = ret (fun u => opt_eqb (u_email u) (Some s))
}.

Record LoginRequest := mkLoginRequest {
  lq_email : JsValue;
  lq_password : JsValue
}.

Module DynV1.
Section Handlers.
Context `{Bcrypt} `{Jwt} `{Mongoose} `{FilterCast}.
Variable cfg : Config.

(** [bcrypt.compare(password, user.password)]: rejects unless both
    arguments are strings. *)
Definition compare_password (password : JsValue) (stored : option string)
  : Exn bool :=
  match password, stored with
  | JStr s, Some h => ret (bcrypt_compare s h)
  | _, _ => throw "Illegal arguments"
  end.

(** Lines 127-177, on any JSON body. *)
Definition login (st : Store) (b : LoginRequest) (e : Env)
  : Response * Store :=
  try_catch st
    (if negb (js_truthy (lq_email b)) || negb (js_truthy (lq_password b))
     then ret (failure 400 "Email y contraseña son requeridos", st)
     else
       let* test := email_filter (lq_email b) in
       match find test (users st) with
       | None => ret (failure 401 "Credenciales inválidas", st)
       | Some user =>
           let* isPasswordValid :=
             compare_password (lq_password b) (u_password user) in
           if negb isPasswordValid
           then ret (failure 401 "Credenciales inválidas", st)
           else
             let token := jwt_sign (u_id user) (u_email user)
                            (cfg_secret cfg) (clock_s e) expiresIn_24h in
             ret (mkResponse 200 true (Some "Login exitoso")
                    (Session token (public user)), st)
       end)
    (fun _ => failure 500 "Error interno del servidor").

(** [User.findById(id)]: the id is cast to an ObjectId first. *)
Definition findById (st : Store) (id : string) : Exn (option User) :=
  match cast_objectid id with
  | Some oid => ret (findById st oid)
  | None => throw "CastError: Cast to ObjectId failed"
  end.

(** Lines 189-202, behind [authenticateToken]. *)
Definition verify (st : Store) (authorization : option string) (e : Env)
  : Response * Store :=
  match V1.authenticateToken cfg authorization e with
  | Reject r => (r, st)
  | Next user =>
      try_catch st
        (let* found := findById st (p_userId user) in
         match found with
         | None => ret (failure 404 "Usuario no encontrado", st)
         | Some u => ret (mkResponse 200 true None (Account (public u)), st)
         end)
        (fun _ => failure 401 "Token inválido")
  end.
End Handlers.
End DynV1.

Module DynV2.
Section Handlers.
Context `{Jwt} `{Mongoose}.
Variable cfg : Config.

(** Lines 398-411. *)
Definition verify (st : Store) (authorization : option string) (e : Env)
  : Response * Store :=
  try_catch st
    (let token :=
       match authorization with
       | Some h => nth_error (split " " h) 1
       | None => None
       end in
     if negb (truthy token) then ret (failure 401 "Token requerido", st)
     else
       match token with
       | None => ret (failure 401 "Token requerido", st)
       | Some t =>
           let* decoded := V2.verify_or_throw cfg t e in
           let* found := DynV1.findById st (p_userId decoded) in
           match found with
           | None => ret (failure 404 "Usuario no encontrado", st)
           | Some u =>
               ret (mkResponse 200 true None (Account (public u)), st)
           end
       end)
    (fun _ => failure 401 "Token inválido").
End Handlers.
End DynV2.

(** A reference cast for filters: a string is matched as it is, a
    number by its decimal text, a boolean by its name, null and
    undefined match a missing field, an object is refused. *)
Module RefCast.

Definition filter (v : JsValue) : Exn (User -> bool) :=
  match v with
  | JStr s => ret (fun u => opt_eqb (u_email u) (Some s))
  | JNum n =>
      ret (fun u => opt_eqb (u_email u)
                      (Some (DecimalString.NilZero.string_of_int (Z.to_int n))))
  | JBool b =>
      ret (fun u => opt_eqb (u_email u) (Some (if b then "true" else "false")))
  | JUndefined | JNull => ret (fun u => opt_eqb (u_email u) None)
  | JObject => throw "CastError"
  end.

#[export] Instance filter_cast : FilterCast := {| email_filter := filter |}.

(** Ana's email with the number 123 where the password goes. *)
Definition numeric_login : LoginRequest :=
  mkLoginRequest (JStr "a@x.com") (JNum 123).

(** A token signed with the server's secret whose [userId] is not an
    ObjectId, and one whose [userId] is an ObjectId no account has. *)
Definition token_abc : string :=
  jwt_sign (H := Ref.jwt) "abc" (Some "a@x.com") "s3cret"
           (clock_s Sample.e0) expiresIn_24h.

Definition token_gone : string :=
  jwt_sign (H := Ref.jwt) "65a0000000000000000000ff" (Some "a@x.com")
           "s3cret" (clock_s Sample.e0) expiresIn_24h.

End RefCast.

(** * Properties *)

(** Reduction of the handlers' control flow, leaving the library calls
    and the schema tests folded. *)
Ltac hsimpl :=
  cbn [bind ret throw try_catch negb orb andb fst snd
       success status message data truthy truthy_num failure ok].

(** Case analysis on a string field: missing, empty, or present. *)
Ltac field o x :=
  destruct o as [x|]; hsimpl;
  [destruct (String.eqb_spec x ""); hsimpl|].

(** ** Strings *)

Lemma truthy_Some (s : string) : truthy (Some s) = true <-> s <> "".
Proof.
  unfold truthy. destruct (String.eqb_spec s ""); simpl; split;
    congruence.
Qed.

Lemma split_no_space (t : string) :
  no_space t = true -> split " " t = [t].
Proof.
  induction t as [|a r IH]; simpl; [reflexivity|].
  destruct (Ascii.eqb a " "); simpl; [discriminate|].
  intros Hr. rewrite (IH Hr). reflexivity.
Qed.

(** The header ["Bearer " + t] carries [t] as its second word. *)
Lemma bearer_second_word (t : string) :
  no_space t = true -> nth_error (split " " ("Bearer " ++ t)) 1 = Some t.
Proof.
  intros Ht. simpl. rewrite (split_no_space t Ht). reflexivity.
Qed.

(** ** The reference libraries satisfy the laws *)

Lemma ref_get_put (s k : string) :
  Ref.get_field (Ref.put_field s k) = Some (s, k).
Proof.
  induction s as [|a r IH]; [reflexivity|].
  destruct a as [b0 b1 b2 b3 b4 b5 b6 b7].
  destruct b0, b1, b2, b3, b4, b5, b6, b7; cbn; rewrite IH; reflexivity.
Qed.

Lemma ref_put_no_space (s k : string) :
  no_space (Ref.put_field s k) = no_space k.
Proof.
  induction s as [|a r IH]; [reflexivity|].
  destruct a as [b0 b1 b2 b3 b4 b5 b6 b7].
  destruct b0, b1, b2, b3, b4, b5, b6, b7; cbn; exact IH.
Qed.

Lemma ref_put_nonempty (s k : string) : Ref.put_field s k <> "".
Proof.
  destruct s as [|[b0 b1 b2 b3 b4 b5 b6 b7] r]; cbn; discriminate.
Qed.

Lemma ref_get_put_opt (o : option string) (k : string) :
  Ref.get_opt (Ref.put_opt o k) = Some (o, k).
Proof.
  unfold Ref.get_opt, Ref.put_opt. destruct o as [v|].
  - rewrite ref_get_put. simpl. rewrite ref_get_put. reflexivity.
  - rewrite ref_get_put. reflexivity.
Qed.

Lemma ref_decode_encode (p : Payload) (sg : string) :
  Ref.decode (Ref.encode p sg) = Some (p, sg).
Proof.
  unfold Ref.decode, Ref.encode.
  rewrite !ref_get_put, ref_get_put_opt, !ref_get_put.
  rewrite !HexString.to_Z_of_Z. destruct p; reflexivity.
Qed.

Lemma ref_jwt_laws : @JwtLaws Ref.jwt.
Proof.
  split.
  - exact ref_decode_encode.
  - intros p sg. cbn. unfold Ref.encode, Ref.put_opt.
    destruct (p_email p); rewrite !ref_put_no_space; reflexivity.
  - intros p sg. apply ref_put_nonempty.
Qed.

Lemma ref_bcrypt_laws : @BcryptLaws Ref.bcrypt.
Proof.
  split. intros s rounds slt. cbn.
  rewrite ref_get_put. apply String.eqb_refl.
Qed.

(** ** Startup *)

Lemma or_default_truthy (v : option string) (d : string) :
  truthy (Some (or_default v d)) = true \/ or_default v d = d.
Proof.
  unfold or_default. destruct v as [x|]; simpl; [|now right].
  destruct (String.eqb x "") eqn:E; simpl; [now right|].
  left. now rewrite E.
Qed.

(** Variant 1 stops with exit code 1 exactly when the signing secret or
    the connection string is missing or empty. *)
Lemma V1_startup_exits (env : ProcessEnv) :
  V1.startup env = Exit 1 <->
  truthy (JWT_SECRET env) = false \/ truthy (MONGO_URI env) = false.
Proof.
  unfold V1.startup.
  destruct (truthy (JWT_SECRET env)), (truthy (MONGO_URI env)); simpl;
    split; intros Hx; try discriminate; auto;
    destruct Hx; discriminate.
Qed.

(** When variant 1 reaches [listen], both values are the ones of the
    environment and neither is empty. *)
Lemma V1_startup_listening (env : ProcessEnv) (c : Config) :
  V1.startup env = Listening c ->
  JWT_SECRET env = Some (cfg_secret c) /\ cfg_secret c <> "" /\
  MONGO_URI env = Some (cfg_mongo_uri c) /\ cfg_mongo_uri c <> "".
Proof.
  unfold V1.startup, or_default.
  destruct (JWT_SECRET env) as [k|]; simpl; [|discriminate].
  destruct (String.eqb_spec k ""); simpl; [discriminate|].
  destruct (MONGO_URI env) as [m|]; simpl; [|discriminate].
  destruct (String.eqb_spec m ""); simpl; [discriminate|].
  intros [= <-]. simpl. auto.
Qed.

(** Variant 2 does stop when the connection string is missing. *)
Lemma V2_startup_requires_mongo_uri (env : ProcessEnv) :
  truthy (MONGO_URI env) = false ->
  exists msg, V2.startup env = Uncaught msg.
Proof.
  intros Hm. unfold V2.startup. rewrite Hm. simpl. eauto.
Qed.

(** C7, at the failing input: with [MONGO_URI] set and [JWT_SECRET]
    absent, variant 2 does not exit; it listens with the constant
    ["fallback_secret"] as signing secret, where variant 1 exits with
    code 1. *)
Theorem V2_startup_falls_back_to_default_secret :
  let env := mkProcessEnv None (Some "mongodb://localhost/tech") None in
  V2.startup env
    = Listening (mkConfig "fallback_secret" "mongodb://localhost/tech" "3000")
  /\ V1.startup env = Exit 1.
Proof. split; reflexivity. Qed.

(** ** Registration *)

Lemma find_none_filter {A} (f : A -> bool) (l : list A) :
  find f l = None -> filter f l = [].
Proof.
  induction l as [|x t IH]; simpl; [reflexivity|].
  destruct (f x); [discriminate|exact IH].
Qed.

Lemma find_some_existsb {A} (f : A -> bool) (l : list A) (x : A) :
  find f l = Some x -> existsb f l = true.
Proof.
  induction l as [|y t IH]; simpl; [discriminate|].
  destruct (f y); simpl; [reflexivity|exact IH].
Qed.

Lemma find_none_existsb {A} (f : A -> bool) (l : list A) :
  find f l = None -> existsb f l = false.
Proof.
  induction l as [|y t IH]; simpl; [reflexivity|].
  destruct (f y); simpl; [discriminate|exact IH].
Qed.

Lemma opt_eqb_refl (o : option string) : opt_eqb o o = true.
Proof. destruct o; simpl; [apply String.eqb_refl|reflexivity]. Qed.

Lemma opt_eqb_eq (a b : option string) : opt_eqb a b = true <-> a = b.
Proof.
  destruct a as [x|], b as [y|]; simpl; split; try congruence.
  - intros Hxy. apply String.eqb_eq in Hxy. congruence.
  - intros [= ->]. apply String.eqb_refl.
Qed.

(** After an insert into a store that did not hold the identity, the
    store holds it once, and [findOne] finds the new account. *)
Lemma count_email_add_fresh (st : Store) (u : User) :
  findOne_email st (u_email u) = None ->
  count_email (add_user st u) (u_email u) = 1%nat
  /\ findOne_email (add_user st u) (u_email u) = Some u.
Proof.
  unfold findOne_email, count_email, add_user. simpl. intros Hnone.
  rewrite filter_app, (find_none_filter _ _ Hnone). simpl.
  rewrite opt_eqb_refl. split; [reflexivity|].
  induction (users st) as [|x t IH]; simpl in *.
  - now rewrite opt_eqb_refl.
  - destruct (opt_eqb (u_email x) (u_email u)); [discriminate|auto].
Qed.

Section Registration.
Context `{Bcrypt}.

(** The outcomes of [register] in variant 1: a failure that leaves the
    store alone, or status 201 with one new account whose password is
    the bcrypt hash, at cost 10, of the secret. *)
Lemma V1_register_cases (st : Store) (b : RegisterBody) (e : Env) :
  (success (fst (V1.register st b e)) = false
   /\ snd (V1.register st b e) = st)
  \/ (exists secret,
        rg_password b = Some secret
        /\ truthy (rg_name b) = true /\ truthy (rg_email b) = true
        /\ truthy (rg_password b) = true
        /\ findOne_email st (rg_email b) = None
        /\ V1.register st b e =
             (ok 201 "Usuario registrado con éxito",
              add_user st (mkUser (fresh_id e) (rg_name b) (rg_email b)
                             (Some (bcrypt_hash secret 10 (salt e)))))).
Proof.
  unfold V1.register, try_catch.
  destruct (truthy (rg_name b)); simpl; [|now left].
  destruct (truthy (rg_email b)); simpl; [|now left].
  destruct (truthy (rg_password b)) eqn:Hp; simpl; [|now left].
  destruct (findOne_email st (rg_email b)) as [u|] eqn:Hf; simpl;
    [now left|].
  destruct (rg_password b) as [secret|]; simpl; [|now left].
  unfold V1.save_user. simpl.
  unfold findOne_email in Hf. rewrite (find_none_existsb _ _ Hf). simpl.
  right. exists secret. repeat split; auto.
Qed.

(** Variant 1 keeps the hash of the secret it was given; the stored
    value is not the secret unless bcrypt returned its input. *)
Lemma V1_register_stores_hash (st : Store) (b : RegisterBody) (e : Env) :
  success (fst (V1.register st b e)) = true ->
  exists secret u,
    rg_password b = Some secret
    /\ users (snd (V1.register st b e)) = (users st ++ [u])%list
    /\ u_password u = Some (bcrypt_hash secret 10 (salt e))
    /\ (bcrypt_hash secret 10 (salt e) <> secret ->
        u_password u <> Some secret).
Proof.
  intros Hs.
  destruct (V1_register_cases st b e) as [[Hf _]|(secret & Hp & _ & _ & _ & _ & Hr)].
  - congruence.
  - rewrite Hr. simpl. eexists secret, _. repeat split; eauto.
    simpl. intros Hne [= Heq]. exact (Hne Heq).
Qed.

(** Variant 1 keeps that invariant: whatever requests arrive, the
    store it builds from the empty one holds hashes only. *)
Lemma V1_register_keeps_all_hashed (st : Store) (b : RegisterBody) (e : Env) :
  all_hashed st -> all_hashed (snd (V1.register st b e)).
Proof.
  intros Hst.
  destruct (V1_register_cases st b e) as [[_ ->]|(secret & _ & _ & _ & _ & _ & ->)];
    [exact Hst|].
  unfold all_hashed, add_user. cbn [snd users].
  apply Forall_app. split; [exact Hst|].
  constructor; [|constructor]. simpl. eauto.
Qed.
End Registration.

(** C1, at the failing input: variant 2 answers a registration with
    success and persists the secret ["pw123"] itself as the password of
    the account; no hash is computed. *)
Theorem V2_register_stores_plaintext :
  let b := mkRegisterBody (Some "Ana") (Some "a@x.com") (Some "pw123") in
  let e := mkEnv 1700000000000 "s" "65a000000000000000000001" in
  V2.register empty_store b e =
    (ok 200 "Usuario registrado con éxito",
     mkStore [mkUser "65a000000000000000000001" (Some "Ana") (Some "a@x.com")
                (Some "pw123")] [] []).
Proof. reflexivity. Qed.

(** In variant 2 the stored password is the request's, on every
    success. *)
Lemma V2_register_cases (st : Store) (b : RegisterBody) (e : Env) :
  (exists u, findOne_email st (rg_email b) = Some u
             /\ V2.register st b e = (failure 400 "El usuario ya existe", st))
  \/ (findOne_email st (rg_email b) = None
      /\ V2.register st b e =
           (ok 200 "Usuario registrado con éxito",
            add_user st (mkUser (fresh_id e) (rg_name b) (rg_email b)
                           (rg_password b)))).
Proof.
  unfold V2.register, try_catch.
  destruct (findOne_email st (rg_email b)) as [u|]; simpl; eauto.
Qed.

Section RegistrationTwice.
Context `{Bcrypt}.

(** A registration for an identity the store holds is answered 400
    and writes nothing; the message is the duplicate one as soon as
    the three fields are present. *)
Lemma V1_register_existing (st : Store) (b : RegisterBody) (e : Env) (u : User) :
  truthy (rg_email b) = true ->
  findOne_email st (rg_email b) = Some u ->
  V1.register st b e =
    (failure 400 (if truthy (rg_name b) && truthy (rg_password b)
                  then "El usuario ya existe"
                  else "Nombre, email y contraseña son requeridos"), st).
Proof.
  intros He Hf. unfold V1.register, try_catch. rewrite He, Hf.
  destruct (truthy (rg_name b)), (truthy (rg_password b)); reflexivity.
Qed.

Lemma V1_register_missing_field (st : Store) (b : RegisterBody) (e : Env) :
  truthy (rg_name b) && truthy (rg_email b) && truthy (rg_password b) = false ->
  V1.register st b e =
    (failure 400 "Nombre, email y contraseña son requeridos", st).
Proof.
  unfold V1.register, try_catch.
  destruct (truthy (rg_name b)), (truthy (rg_email b)),
    (truthy (rg_password b)); simpl; intros Hm;
    try discriminate; reflexivity.
Qed.

(** C9: in variant 1 a registration that fails writes nothing: with a
    required field missing or empty, the answer is 400 and the store
    is the one before; so it is when the identity is already held;
    and whatever the cause, a response with [success: false] comes
    with an unchanged store. *)
Theorem V1_register_failure_leaves_store
    (st : Store) (b : RegisterBody) (e : Env) :
  (truthy (rg_name b) && truthy (rg_email b) && truthy (rg_password b) = false ->
     V1.register st b e =
       (failure 400 "Nombre, email y contraseña son requeridos", st))
  /\ (forall u,
        truthy (rg_name b) && truthy (rg_email b) && truthy (rg_password b) = true ->
        findOne_email st (rg_email b) = Some u ->
        V1.register st b e = (failure 400 "El usuario ya existe", st))
  /\ (success (fst (V1.register st b e)) = false ->
        snd (V1.register st b e) = st).
Proof.
  split; [apply V1_register_missing_field|split].
  - intros u Hp Hf.
    apply andb_prop in Hp as [Hp Hpw]. apply andb_prop in Hp as [Hn He].
    rewrite (V1_register_existing st b e u He Hf), Hn, Hpw. reflexivity.
  - intros Hs.
    destruct (V1_register_cases st b e) as [[_ Hst]|(secret & _ & _ & _ & _ & _ & Hr)];
      [exact Hst|].
    rewrite Hr in Hs. discriminate.
Qed.

(** C4: when a registration succeeded, a second one for the same
    identity is answered 400 without success, the store stays as the
    first call left it and holds exactly one account with that
    identity.  The message is "El usuario ya existe": always in
    variant 2, and in variant 1 once the second request carries a
    name and a password, which its presence check asks for first. *)
Theorem register_twice_same_identity
    (st : Store) (email : string) (b1 b2 : RegisterBody) (e1 e2 : Env) :
  rg_email b1 = Some email ->
  rg_email b2 = Some email ->
  (success (fst (V1.register st b1 e1)) = true ->
     let st1 := snd (V1.register st b1 e1) in
     status (fst (V1.register st1 b2 e2)) = 400
     /\ success (fst (V1.register st1 b2 e2)) = false
     /\ snd (V1.register st1 b2 e2) = st1
     /\ count_email st1 (Some email) = 1%nat
     /\ (truthy (rg_name b2) && truthy (rg_password b2) = true ->
           fst (V1.register st1 b2 e2) = failure 400 "El usuario ya existe"))
  /\ (success (fst (V2.register st b1 e1)) = true ->
       let st1 := snd (V2.register st b1 e1) in
       V2.register st1 b2 e2 = (failure 400 "El usuario ya existe", st1)
       /\ count_email st1 (Some email) = 1%nat).
Proof.
  intros E1 E2. split.
  - intros Hs.
    destruct (V1_register_cases st b1 e1)
      as [[Hf _]|(secret & _ & _ & He & _ & Hnone & Hr)]; [congruence|].
    rewrite Hr. cbn [snd].
    set (u := mkUser _ _ _ _).
    assert (Hu : u_email u = rg_email b1) by reflexivity.
    rewrite <- Hu in Hnone.
    destruct (count_email_add_fresh st u Hnone) as [Hc Hfind].
    rewrite Hu, E1 in Hc, Hfind.
    assert (He2 : truthy (rg_email b2) = true) by (rewrite E2, <- E1; exact He).
    rewrite <- E2 in Hfind.
    rewrite (V1_register_existing _ b2 e2 u He2 Hfind). cbn [fst snd].
    repeat split; auto.
    intros ->. reflexivity.
  - intros Hs.
    destruct (V2_register_cases st b1 e1) as [(u & _ & Hr)|[Hnone Hr]];
      rewrite Hr in Hs |- *; [discriminate|].
    cbn [snd].
    set (u := mkUser _ _ _ _).
    assert (Hu : u_email u = rg_email b1) by reflexivity.
    rewrite <- Hu in Hnone.
    destruct (count_email_add_fresh st u Hnone) as [Hc Hfind].
    rewrite Hu, E1 in Hc, Hfind. split; [|exact Hc].
    rewrite <- E2 in Hfind.
    destruct (V2_register_cases (add_user st u) b2 e2)
      as [(u' & _ & Hr2)|[Hnone2 _]]; [exact Hr2|congruence].
Qed.
End RegistrationTwice.

Lemma V1_register_failure_leaves_store_witness :
  V1.register (H := Ref.bcrypt) Sample.st_ana Sample.nameless Sample.e1
    = (failure 400 "Nombre, email y contraseña son requeridos", Sample.st_ana)
  /\ V1.register (H := Ref.bcrypt) Sample.st_ana Sample.ana_again Sample.e1
      = (failure 400 "El usuario ya existe", Sample.st_ana)
  /\ snd (V1.register (H := Ref.bcrypt) Sample.st_ana Sample.ana_again Sample.e1)
      = Sample.st_ana.
Proof.
  split; [|split].
  - apply (V1_register_failure_leaves_store (H := Ref.bcrypt)). reflexivity.
  - eapply (proj1 (proj2 (V1_register_failure_leaves_store (H := Ref.bcrypt)
                            Sample.st_ana Sample.ana_again Sample.e1)));
      reflexivity.
  - apply (proj2 (proj2 (V1_register_failure_leaves_store (H := Ref.bcrypt)
                           Sample.st_ana Sample.ana_again Sample.e1))).
    reflexivity.
Defined.

Lemma register_twice_same_identity_witness :
  (let st1 := snd (V1.register (H := Ref.bcrypt) empty_store Sample.ana Sample.e0) in
   status (fst (V1.register (H := Ref.bcrypt) st1 Sample.ana_again Sample.e1)) = 400
   /\ success (fst (V1.register (H := Ref.bcrypt) st1 Sample.ana_again Sample.e1)) = false
   /\ snd (V1.register (H := Ref.bcrypt) st1 Sample.ana_again Sample.e1) = st1
   /\ count_email st1 (Some "a@x.com") = 1%nat
   /\ (truthy (rg_name Sample.ana_again) && truthy (rg_password Sample.ana_again) = true ->
         fst (V1.register (H := Ref.bcrypt) st1 Sample.ana_again Sample.e1)
           = failure 400 "El usuario ya existe"))
  /\ (let st1 := snd (V2.register empty_store Sample.ana Sample.e0) in
      V2.register st1 Sample.ana_again Sample.e1
        = (failure 400 "El usuario ya existe", st1)
      /\ count_email st1 (Some "a@x.com") = 1%nat).
Proof.
  destruct (register_twice_same_identity (H := Ref.bcrypt) empty_store "a@x.com"
              Sample.ana Sample.ana_again Sample.e0 Sample.e1
              eq_refl eq_refl) as [H1 H2].
  split; [apply H1|apply H2]; reflexivity.
Defined.

(** ** Problem reports *)

(** The two samples of the spec, as the handler normalizes them. *)
Example normalize_alta : normalizeUrgency "alta" = "Alta".
Proof. reflexivity. Qed.

Example normalize_urgente : normalizeUrgency "URGENTE" = "Urgente".
Proof. reflexivity. Qed.

(** Variant 1 accepts a report exactly when the four fields are present
    and the normalized urgency is one of Baja, Media, Alta. *)
Lemma V1_createProblem_accepts (st : Store) (b : ProblemBody) (e : Env) :
  success (fst (V1.createProblem st b e)) = true <->
  truthy (pr_title b) && truthy (pr_description b) && truthy (pr_category b) = true
  /\ exists u, pr_urgency b = Some u /\ u <> ""
               /\ includes validUrgencies (normalizeUrgency u) = true.
Proof.
  unfold V1.createProblem, save_problem.
  field (pr_title b) t;
    try (split; [discriminate|intros [Hx _]; discriminate]).
  field (pr_description b) d;
    try (split; [discriminate|intros [Hx _]; discriminate]).
  field (pr_category b) c;
    try (split; [discriminate|intros [Hx _]; discriminate]).
  field (pr_urgency b) u.
  - split; [discriminate|]. intros [_ (u' & [= <-] & Hne & _)]. contradiction.
  - destruct (includes validUrgencies (normalizeUrgency u)) eqn:Hin; hsimpl.
    + split; [|reflexivity]. intros _. split; [reflexivity|]. eauto.
    + split; [discriminate|].
      intros [_ (u' & [= <-] & _ & Hx)]. congruence.
  - split; [discriminate|]. intros [_ (u' & Hx & _)]. discriminate.
Qed.

(** Every refusal of variant 1 is a 400 that writes nothing, and an
    accepted report is stored with the normalized urgency. *)
Lemma V1_createProblem_outcomes (st : Store) (b : ProblemBody) (e : Env) :
  (success (fst (V1.createProblem st b e)) = false
   /\ status (fst (V1.createProblem st b e)) = 400
   /\ snd (V1.createProblem st b e) = st)
  \/ (exists t d c u,
        pr_title b = Some t /\ pr_description b = Some d
        /\ pr_category b = Some c /\ pr_urgency b = Some u
        /\ V1.createProblem st b e =
             (ok 201 "Problema guardado exitosamente",
              mkStore (users st)
                (problems st ++ [mkProblem (fresh_id e) t d c
                                   (normalizeUrgency u) (now_ms e)])
                (reviews st))).
Proof.
  unfold V1.createProblem, save_problem.
  field (pr_title b) t; auto.
  field (pr_description b) d; auto.
  field (pr_category b) c; auto.
  field (pr_urgency b) u; auto.
  destruct (includes validUrgencies (normalizeUrgency u)); hsimpl; auto.
  right. exists t, d, c, u. auto 6.
Qed.

Example V1_createProblem_alta :
  V1.createProblem empty_store Sample.alta Sample.e0 =
    (ok 201 "Problema guardado exitosamente",
     mkStore [] [mkProblem "65a000000000000000000001" "Impresora" "No imprime"
                   "Hardware" "Alta" 1700000000000] []).
Proof. reflexivity. Qed.

Example V2_createProblem_alta :
  V2.createProblem empty_store Sample.alta Sample.e0 =
    V1.createProblem empty_store Sample.alta Sample.e0.
Proof. reflexivity. Qed.

(** Variant 2 answers every urgency outside the set with 500. *)
Lemma V2_createProblem_invalid_urgency
    (st : Store) (b : ProblemBody) (e : Env) (u : string) :
  pr_urgency b = Some u ->
  includes validUrgencies (normalizeUrgency u) = false ->
  V2.createProblem st b e = (failure 500 "No se pudo guardar el problema", st).
Proof.
  intros Hu Hin. unfold V2.createProblem, try_catch, save_problem.
  rewrite Hu. hsimpl.
  destruct (pr_title b), (pr_description b), (pr_category b); hsimpl;
    try reflexivity.
  rewrite Hin, !andb_false_r. reflexivity.
Qed.

(** C6, at the failing input: the urgency "urgente" is normalized to
    "Urgente", which is not in the set; variant 1 refuses it with 400
    "Nivel de urgencia no válido", variant 2 with 500 "No se pudo
    guardar el problema". *)
Theorem V2_createProblem_urgente_is_500 :
  V2.createProblem empty_store Sample.urgente Sample.e0
    = (failure 500 "No se pudo guardar el problema", empty_store)
  /\ V1.createProblem empty_store Sample.urgente Sample.e0
     = (failure 400 "Nivel de urgencia no válido", empty_store).
Proof. split; reflexivity. Qed.

(** ** Reviews *)

(** C10: in variant 1 a review whose rating is the number 0 is answered
    400 "Faltan campos requeridos" and nothing is written, whatever the
    other fields and whatever the schema would have said: the presence
    check [!rating] comes before [save]. *)
Theorem V1_createReview_rating_zero `{Mongoose}
    (st : Store) (b : ReviewBody) (e : Env) :
  rb_rating b = Some 0 ->
  V1.createReview st b e = (failure 400 "Faltan campos requeridos", st).
Proof.
  intros Hr. unfold V1.createReview, try_catch. rewrite Hr.
  destruct (truthy (rb_userId b)), (truthy (rb_userName b)); reflexivity.
Qed.

Lemma V1_createReview_rating_zero_witness :
  rb_rating Sample.review_zero = Some 0
  /\ V1.createReview (H1 := Ref.mongoose) empty_store Sample.review_zero Sample.e0
     = (failure 400 "Faltan campos requeridos", empty_store).
Proof.
  split; [reflexivity|].
  apply (V1_createReview_rating_zero (H := Ref.mongoose)). reflexivity.
Defined.

(** With any rating from 1 to 5 the same request reaches the schema. *)
Example V1_createReview_rating_three :
  let b := mkReviewBody (Some "65a000000000000000000001") (Some "Ana") (Some 3)
             (Some "bien") (Some "0x18bcfe56800") (Some "No imprime")
             (Some "destornillador") in
  status (fst (V1.createReview (H1 := Ref.mongoose) empty_store b Sample.e0)) = 201.
Proof. reflexivity. Qed.

Lemma insert_desc_perm (r : Review) (l : list Review) :
  Permutation (r :: l) (insert_desc r l).
Proof.
  induction l as [|x t IH]; simpl; [reflexivity|].
  destruct (rv_date x <=? rv_date r); [reflexivity|].
  rewrite perm_swap. now constructor.
Qed.

Lemma sort_date_desc_perm (l : list Review) :
  Permutation l (sort_date_desc l).
Proof.
  induction l as [|r t IH]; simpl; [constructor|].
  rewrite <- insert_desc_perm. now constructor.
Qed.

Lemma insert_desc_sorted (r : Review) (l : list Review) :
  StronglySorted date_ge l -> StronglySorted date_ge (insert_desc r l).
Proof.
  induction 1 as [|x t Hs IH Hall]; simpl.
  - repeat constructor.
  - destruct (Z.leb_spec (rv_date x) (rv_date r)) as [Hle|Hgt].
    + constructor; [now constructor|].
      constructor; [exact Hle|].
      eapply Forall_impl; [|exact Hall]. unfold date_ge. intros; lia.
    + constructor; [exact IH|].
      eapply Permutation_Forall; [apply insert_desc_perm|].
      constructor; [unfold date_ge; lia|exact Hall].
Qed.

Lemma sort_date_desc_sorted (l : list Review) :
  StronglySorted date_ge (sort_date_desc l).
Proof.
  induction l as [|r t IH]; simpl; [constructor|].
  now apply insert_desc_sorted.
Qed.

(** C8: in both variants [GET /api/reviews] answers 200 with a list that
    is a permutation of the whole review collection (no limit, no skip,
    so as long as the collection), ordered by [date] from the latest to
    the earliest, and leaves the store as it was. *)
Theorem listReviews_all_sorted_desc (st : Store) :
  exists l,
    V1.listReviews st = (mkResponse 200 true None (Reviews l), st)
    /\ V2.listReviews st = (mkResponse 200 true None (Reviews l), st)
    /\ Permutation (reviews st) l
    /\ length l = length (reviews st)
    /\ StronglySorted date_ge l.
Proof.
  exists (find_reviews_sorted st). unfold find_reviews_sorted.
  repeat split.
  - apply sort_date_desc_perm.
  - symmetry. apply Permutation_length, sort_date_desc_perm.
  - apply sort_date_desc_sorted.
Qed.

(** ** Login *)

Lemma findOne_email_password_none (st : Store) (email password : option string) :
  findOne_email st email = None ->
  findOne_email_password st email password = None.
Proof.
  unfold findOne_email, findOne_email_password.
  induction (users st) as [|x t IH]; simpl; [reflexivity|].
  destruct (opt_eqb (u_email x) email); simpl; [discriminate|exact IH].
Qed.

Section Login.
Context `{Bcrypt} `{Jwt}.
Variable cfg : Config.

(** With both fields present, an unknown identity is answered 401
    "Credenciales inválidas". *)
Lemma V1_login_unknown (st : Store) (b : LoginBody) (e : Env) :
  truthy (lg_email b) = true -> truthy (lg_password b) = true ->
  findOne_email st (lg_email b) = None ->
  V1.login cfg st b e = (failure 401 "Credenciales inválidas", st).
Proof.
  intros He Hp Hf. unfold V1.login. rewrite He, Hp, Hf. reflexivity.
Qed.

(** And so is a secret that bcrypt does not match with the stored hash. *)
Lemma V1_login_wrong_secret
    (st : Store) (b : LoginBody) (e : Env) (u : User) (s h : string) :
  truthy (lg_email b) = true -> truthy (lg_password b) = true ->
  findOne_email st (lg_email b) = Some u ->
  lg_password b = Some s -> u_password u = Some h ->
  bcrypt_compare s h = false ->
  V1.login cfg st b e = (failure 401 "Credenciales inválidas", st).
Proof.
  intros He Hp Hf Hs Hh Hc. unfold V1.login, V1.compare_password.
  rewrite He, Hp, Hf. hsimpl. rewrite Hs, Hh. hsimpl. rewrite Hc.
  reflexivity.
Qed.

(** The presence check of variant 1 does not look at the store. *)
Lemma V1_login_missing_field (st : Store) (b : LoginBody) (e : Env) :
  truthy (lg_email b) && truthy (lg_password b) = false ->
  V1.login cfg st b e = (failure 400 "Email y contraseña son requeridos", st).
Proof.
  unfold V1.login.
  destruct (truthy (lg_email b)), (truthy (lg_password b)); simpl;
    intros Hm; try discriminate; reflexivity.
Qed.

Lemma V2_login_no_match (st : Store) (b : LoginBody) (e : Env) :
  findOne_email_password st (lg_email b) (lg_password b) = None ->
  V2.login cfg st b e = (failure 401 "Credenciales inválidas", st).
Proof. intros Hf. unfold V2.login. rewrite Hf. reflexivity. Qed.

(** String identities and secrets: the same identity and secret are
    sent to a store that does not hold the identity and to a store that
    holds it with a credential the secret does not match.  The two
    responses, status and body, are equal, in each variant; with a
    non-empty identity and secret they are 401 "Credenciales
    inválidas".  A secret that is not a string is another matter: see
    the section on login with a secret that is not a string. *)
Theorem login_failure_indistinguishable
    (st_absent st_wrong : Store) (email secret : string) (e e' : Env)
    (u : User) :
  let b := mkLoginBody (Some email) (Some secret) in
  findOne_email st_absent (Some email) = None ->
  findOne_email st_wrong (Some email) = Some u ->
  (forall h, u_password u = Some h -> bcrypt_compare secret h = false ->
     fst (V1.login cfg st_absent b e) = fst (V1.login cfg st_wrong b e')
     /\ (email <> "" -> secret <> "" ->
         fst (V1.login cfg st_wrong b e')
           = failure 401 "Credenciales inválidas"))
  /\ (findOne_email_password st_wrong (Some email) (Some secret) = None ->
      fst (V2.login cfg st_absent b e) = fst (V2.login cfg st_wrong b e')
      /\ fst (V2.login cfg st_wrong b e')
           = failure 401 "Credenciales inválidas").
Proof.
  intros b Ha Hw. split.
  - intros h Hh Hc.
    destruct (truthy (lg_email b) && truthy (lg_password b)) eqn:Hpres.
    + apply andb_prop in Hpres as [He Hp].
      rewrite (V1_login_unknown st_absent b e He Hp Ha).
      rewrite (V1_login_wrong_secret st_wrong b e' u secret h
                 He Hp Hw eq_refl Hh Hc).
      split; reflexivity.
    + rewrite !(V1_login_missing_field _ b _ Hpres).
      split; [reflexivity|]. intros Hne Hns.
      apply truthy_Some in Hne. apply truthy_Some in Hns.
      simpl lg_email in Hpres. simpl lg_password in Hpres.
      rewrite Hne, Hns in Hpres. discriminate.
  - intros Hnone.
    rewrite (V2_login_no_match st_absent b e
               (findOne_email_password_none _ _ _ Ha)).
    rewrite (V2_login_no_match st_wrong b e' Hnone).
    split; reflexivity.
Qed.

(** A login answered with a session found the account by its identity,
    and the token is the one [jwt.sign] makes for that account, valid
    for 24 hours from the request's clock. *)
Lemma V1_login_session
    (st : Store) (b : LoginBody) (e : Env) (token : string) (pu : PublicUser) :
  data (fst (V1.login cfg st b e)) = Session token pu ->
  exists u,
    findOne_email st (lg_email b) = Some u
    /\ u_email u = lg_email b
    /\ pu = public u
    /\ token = jwt_sign (u_id u) (u_email u) (cfg_secret cfg) (clock_s e)
                 expiresIn_24h.
Proof.
  unfold V1.login, V1.compare_password.
  destruct (truthy (lg_email b)); hsimpl; [|discriminate].
  destruct (truthy (lg_password b)); hsimpl; [|discriminate].
  destruct (findOne_email st (lg_email b)) as [u|] eqn:Hf; hsimpl;
    [|discriminate].
  destruct (lg_password b) as [s|]; [|discriminate].
  destruct (u_password u) as [h|]; [|discriminate].
  hsimpl. destruct (bcrypt_compare s h); hsimpl; [|discriminate].
  intros [= <- <-]. exists u. repeat split.
  unfold findOne_email in Hf. apply find_some in Hf as [_ Hm].
  now apply opt_eqb_eq.
Qed.
End Login.

(** With a bcrypt whose [compare] accepts what [hash] made, the account
    a registration created logs in with the secret it registered. *)
Lemma V1_login_after_register `{Bcrypt} `{!BcryptLaws} `{Jwt}
    (cfg : Config) (st : Store) (b : RegisterBody) (e e' : Env) :
  success (fst (V1.register st b e)) = true ->
  status (fst (V1.login cfg (snd (V1.register st b e))
                 (mkLoginBody (rg_email b) (rg_password b)) e')) = 200.
Proof.
  intros Hs.
  destruct (V1_register_cases st b e)
    as [[Hf _]|(secret & Hp & _ & He & Hpw & Hnone & Hr)]; [congruence|].
  rewrite Hr. cbn [snd].
  set (u := mkUser _ _ _ _).
  assert (Hu : u_email u = rg_email b) by reflexivity.
  rewrite <- Hu in Hnone.
  destruct (count_email_add_fresh st u Hnone) as [_ Hfind].
  rewrite Hu in Hfind.
  unfold V1.login, V1.compare_password. cbn [lg_email lg_password].
  rewrite He, Hpw, Hfind, Hp. hsimpl. cbn [u_password u].
  rewrite compare_hash. reflexivity.
Qed.

Lemma login_failure_indistinguishable_witness :
  (fst (V1.login (H := Ref.bcrypt) (H0 := Ref.jwt) Sample.cfg empty_store
          Sample.bad_login Sample.e1)
   = fst (V1.login (H := Ref.bcrypt) (H0 := Ref.jwt) Sample.cfg Sample.st_ana
            Sample.bad_login Sample.e2)
   /\ ("a@x.com" <> "" -> "pw124" <> "" ->
       fst (V1.login (H := Ref.bcrypt) (H0 := Ref.jwt) Sample.cfg Sample.st_ana
              Sample.bad_login Sample.e2)
       = failure 401 "Credenciales inválidas"))
  /\ (fst (V2.login (H := Ref.jwt) Sample.cfg empty_store
             Sample.bad_login Sample.e1)
      = fst (V2.login (H := Ref.jwt) Sample.cfg Sample.st_ana_plain
               Sample.bad_login Sample.e2)
      /\ fst (V2.login (H := Ref.jwt) Sample.cfg Sample.st_ana_plain
                Sample.bad_login Sample.e2)
         = failure 401 "Credenciales inválidas").
Proof.
  split.
  - eapply (proj1 (login_failure_indistinguishable (H := Ref.bcrypt)
                     (H0 := Ref.jwt) Sample.cfg empty_store Sample.st_ana
                     "a@x.com" "pw124" Sample.e1 Sample.e2 _
                     eq_refl eq_refl)); reflexivity.
  - apply (proj2 (login_failure_indistinguishable (H := Ref.bcrypt)
                    (H0 := Ref.jwt) Sample.cfg empty_store Sample.st_ana_plain
                    "a@x.com" "pw124" Sample.e1 Sample.e2 _
                    eq_refl eq_refl)). reflexivity.
Defined.

(** The right secret opens a session, in both variants. *)
Example V1_login_good :
  status (fst (V1.login (H := Ref.bcrypt) (H0 := Ref.jwt) Sample.cfg
                 Sample.st_ana Sample.good_login Sample.e0)) = 200
  /\ data (fst (V1.login (H := Ref.bcrypt) (H0 := Ref.jwt) Sample.cfg
                  Sample.st_ana Sample.good_login Sample.e0))
     = Session Sample.token
         (mkPublicUser "65a000000000000000000001" (Some "Ana") (Some "a@x.com")).
Proof. split; reflexivity. Qed.

(** ** Session tokens *)

Section Tokens.
Context `{Jwt}.
Variable cfg : Config.

(** The signature is looked at before the expiry: a token whose
    signature is not the MAC of its payload is refused as such at any
    time. *)
Lemma jwt_verify_bad_signature
    (t secret : string) (p : Payload) (sg : string) (clock : Z) :
  tok_decode t = Some (p, sg) -> sg <> hmac secret p ->
  jwt_verify t secret clock = inl (JsonWebTokenError "invalid signature").
Proof.
  intros Hd Hs. unfold jwt_verify. rewrite Hd.
  destruct (String.eqb_spec sg (hmac secret p)); [contradiction|reflexivity].
Qed.

Lemma jwt_verify_expired
    (t secret : string) (p : Payload) (clock : Z) :
  tok_decode t = Some (p, hmac secret p) -> p_exp p <= clock ->
  jwt_verify t secret clock = inl TokenExpiredError.
Proof.
  intros Hd He. unfold jwt_verify. rewrite Hd, String.eqb_refl.
  apply Z.leb_le in He. rewrite He. reflexivity.
Qed.

Lemma jwt_verify_valid
    (t secret : string) (p : Payload) (clock : Z) :
  tok_decode t = Some (p, hmac secret p) -> clock < p_exp p ->
  jwt_verify t secret clock = inr p.
Proof.
  intros Hd He. unfold jwt_verify. rewrite Hd, String.eqb_refl.
  apply Z.leb_gt in He. rewrite He. reflexivity.
Qed.

Lemma second_word_header (hdr t : string) :
  nth_error (split " " hdr) 1 = Some t -> truthy (Some hdr) = true.
Proof. destruct hdr; [discriminate|reflexivity]. Qed.

(** The middleware of variant 1 answers every error of [jwt.verify]
    with 403 "Token inválido". *)
Lemma V1_authenticateToken_error
    (hdr t : string) (e : Env) (err : JwtError) :
  nth_error (split " " hdr) 1 = Some t -> t <> "" ->
  jwt_verify t (cfg_secret cfg) (clock_s e) = inl err ->
  V1.authenticateToken cfg (Some hdr) e = Reject (failure 403 "Token inválido").
Proof.
  intros Hw Ht Hv. unfold V1.authenticateToken.
  rewrite (second_word_header hdr t Hw), Hw.
  apply truthy_Some in Ht. rewrite Ht. hsimpl. rewrite Hv. reflexivity.
Qed.

(** The route of variant 2 answers every error of [jwt.verify] with 401
    "Token inválido". *)
Lemma V2_verify_error
    (st : Store) (hdr t : string) (e : Env) (err : JwtError) :
  nth_error (split " " hdr) 1 = Some t -> t <> "" ->
  jwt_verify t (cfg_secret cfg) (clock_s e) = inl err ->
  V2.verify cfg st (Some hdr) e = (failure 401 "Token inválido", st).
Proof.
  intros Hw Ht Hv. unfold V2.verify, V2.verify_or_throw.
  rewrite Hw. apply truthy_Some in Ht. rewrite Ht. hsimpl. rewrite Hv.
  destruct err; reflexivity.
Qed.

(** C3, as the code has it: a token with a valid signature and a passed
    expiry makes [jwt.verify] fail with TokenExpiredError, and a token
    with another signature makes it fail with "invalid signature" at any
    time, the signature being checked first; the server answers both
    with the one error "Token inválido", 403 from the middleware of
    variant 1 and 401 from the route of variant 2. *)
Theorem token_rejections_share_one_error
    (st : Store) (hdr t : string) (p : Payload) (sg : string) (e : Env) :
  nth_error (split " " hdr) 1 = Some t -> t <> "" ->
  tok_decode t = Some (p, sg) ->
  (sg = hmac (cfg_secret cfg) p -> p_exp p <= clock_s e ->
     jwt_verify t (cfg_secret cfg) (clock_s e) = inl TokenExpiredError
     /\ V1.authenticateToken cfg (Some hdr) e
        = Reject (failure 403 "Token inválido")
     /\ V2.verify cfg st (Some hdr) e = (failure 401 "Token inválido", st))
  /\ (sg <> hmac (cfg_secret cfg) p ->
      jwt_verify t (cfg_secret cfg) (clock_s e)
        = inl (JsonWebTokenError "invalid signature")
      /\ V1.authenticateToken cfg (Some hdr) e
         = Reject (failure 403 "Token inválido")
      /\ V2.verify cfg st (Some hdr) e = (failure 401 "Token inválido", st)).
Proof.
  intros Hw Ht Hd. split.
  - intros -> Hexp.
    pose proof (jwt_verify_expired t _ p _ Hd Hexp) as Hv.
    repeat split; [exact Hv| |].
    + exact (V1_authenticateToken_error hdr t e _ Hw Ht Hv).
    + exact (V2_verify_error st hdr t e _ Hw Ht Hv).
  - intros Hsg.
    pose proof (jwt_verify_bad_signature t _ p sg (clock_s e) Hd Hsg) as Hv.
    repeat split; [exact Hv| |].
    + exact (V1_authenticateToken_error hdr t e _ Hw Ht Hv).
    + exact (V2_verify_error st hdr t e _ Hw Ht Hv).
Qed.

Context `{!JwtLaws}.

(** [verify] undoes [sign] until the expiry. *)
Lemma jwt_verify_sign
    (userId : ObjectId) (email : option string) (secret : string)
    (clock ttl clock' : Z) :
  clock' < clock + ttl ->
  jwt_verify (jwt_sign userId email secret clock ttl) secret clock'
    = inr (mkPayload userId email clock (clock + ttl)).
Proof.
  intros Hlt. unfold jwt_sign.
  apply jwt_verify_valid; [apply decode_encode|exact Hlt].
Qed.

(** C5: the token that a successful login of variant 1 issues for an
    account, sent back as "Bearer <token>" while the clock is less than
    24 hours past the issue, passes [authenticateToken], and [req.user]
    holds exactly the account's id and identity (the one the login
    asked for), with [exp = iat + 86400]. *)
Theorem token_roundtrip_before_expiry `{Bcrypt}
    (st : Store) (b : LoginBody) (e e' : Env)
    (token : string) (pu : PublicUser) :
  data (fst (V1.login cfg st b e)) = Session token pu ->
  clock_s e' < clock_s e + 24 * 60 * 60 ->
  exists p,
    V1.authenticateToken cfg (Some ("Bearer " ++ token)) e' = Next p
    /\ p_userId p = pu_id pu
    /\ p_email p = pu_email pu
    /\ p_email p = lg_email b
    /\ p_iat p = clock_s e
    /\ p_exp p = p_iat p + 86400.
Proof.
  intros Hl Hlt.
  destruct (V1_login_session cfg st b e token pu Hl)
    as (u & _ & Hem & -> & ->).
  exists (mkPayload (u_id u) (u_email u) (clock_s e) (clock_s e + expiresIn_24h)).
  split; [|repeat split; auto].
  unfold V1.authenticateToken.
  set (t := jwt_sign _ _ _ _ _).
  assert (Hns : no_space t = true) by apply encode_no_space.
  assert (Hne : truthy (Some t) = true)
    by (apply truthy_Some, encode_nonempty).
  change (truthy (Some ("Bearer " ++ t))) with true. cbv iota.
  rewrite (bearer_second_word t Hns), Hne. hsimpl.
  unfold t. rewrite jwt_verify_sign by exact Hlt. reflexivity.
Qed.
End Tokens.

Lemma token_rejections_share_one_error_witness :
  (jwt_verify (H := Ref.jwt) Sample.token "s3cret" (clock_s Sample.e2)
     = inl TokenExpiredError
   /\ V1.authenticateToken (H0 := Ref.jwt) Sample.cfg
        (Sample.bearer Sample.token) Sample.e2
      = Reject (failure 403 "Token inválido")
   /\ V2.verify (H := Ref.jwt) Sample.cfg Sample.st_ana
        (Sample.bearer Sample.token) Sample.e2
      = (failure 401 "Token inválido", Sample.st_ana))
  /\ (jwt_verify (H := Ref.jwt) Sample.forged "s3cret" (clock_s Sample.e1)
        = inl (JsonWebTokenError "invalid signature")
      /\ V1.authenticateToken (H0 := Ref.jwt) Sample.cfg
           (Sample.bearer Sample.forged) Sample.e1
         = Reject (failure 403 "Token inválido")
      /\ V2.verify (H := Ref.jwt) Sample.cfg Sample.st_ana
           (Sample.bearer Sample.forged) Sample.e1
         = (failure 401 "Token inválido", Sample.st_ana)).
Proof.
  split.
  - refine (proj1 (token_rejections_share_one_error (H := Ref.jwt) Sample.cfg
                     Sample.st_ana ("Bearer " ++ Sample.token) Sample.token
                     (mkPayload "65a000000000000000000001" (Some "a@x.com")
                        1700000000 1700086400)
                     _ Sample.e2 _ _ _) _ _);
      first [vm_compute; reflexivity | vm_compute; discriminate].
  - refine (proj2 (token_rejections_share_one_error (H := Ref.jwt) Sample.cfg
                     Sample.st_ana ("Bearer " ++ Sample.forged) Sample.forged
                     (mkPayload "65a000000000000000000001" (Some "a@x.com")
                        1700000000 1700086400)
                     _ Sample.e1 _ _ _) _);
      first [vm_compute; reflexivity | vm_compute; discriminate].
Defined.

(** C3, against the claim: the token is Ana's, its signature is valid
    and it is presented exactly 24 hours after the issue.  [jwt.verify]
    reports TokenExpiredError, but the response is "Token inválido", the
    very response a forged token gets: no response of either variant
    tells an expired token from an invalid one. *)
Lemma expired_token_answered_as_invalid :
  jwt_verify (H := Ref.jwt) Sample.token (cfg_secret Sample.cfg)
    (clock_s Sample.e2) = inl TokenExpiredError
  /\ V1.authenticateToken (H0 := Ref.jwt) Sample.cfg
       (Sample.bearer Sample.token) Sample.e2
     = Reject (failure 403 "Token inválido")
  /\ V1.authenticateToken (H0 := Ref.jwt) Sample.cfg
       (Sample.bearer Sample.token) Sample.e2
     = V1.authenticateToken (H0 := Ref.jwt) Sample.cfg
         (Sample.bearer Sample.forged) Sample.e2
  /\ V2.verify (H := Ref.jwt) Sample.cfg Sample.st_ana
       (Sample.bearer Sample.token) Sample.e2
     = (failure 401 "Token inválido", Sample.st_ana)
  /\ V2.verify (H := Ref.jwt) Sample.cfg Sample.st_ana
       (Sample.bearer Sample.token) Sample.e2
     = V2.verify (H := Ref.jwt) Sample.cfg Sample.st_ana
         (Sample.bearer Sample.forged) Sample.e2.
Proof. vm_compute. repeat split. Qed.

Lemma token_roundtrip_before_expiry_witness :
  exists p,
    V1.authenticateToken (H0 := Ref.jwt) Sample.cfg
      (Some ("Bearer " ++ Sample.token)) Sample.e1 = Next p
    /\ p_userId p = "65a000000000000000000001"
    /\ p_email p = Some "a@x.com"
    /\ p_email p = lg_email Sample.good_login
    /\ p_iat p = clock_s Sample.e0
    /\ p_exp p = p_iat p + 86400.
Proof.
  apply (token_roundtrip_before_expiry (H := Ref.jwt) Sample.cfg
           (H0 := ref_jwt_laws) (H1 := Ref.bcrypt) Sample.st_ana Sample.good_login
           Sample.e0 Sample.e1 Sample.token
           (mkPublicUser "65a000000000000000000001" (Some "Ana")
              (Some "a@x.com"))).
  - vm_compute. reflexivity.
  - vm_compute. reflexivity.
Defined.

(** The example of the spec, end to end on variant 1: register, log in,
    verify with the token. *)
Example register_login_verify :
  let st := snd (V1.register (H := Ref.bcrypt) empty_store Sample.ana Sample.e0) in
  fst (V1.register (H := Ref.bcrypt) empty_store Sample.ana Sample.e0)
    = ok 201 "Usuario registrado con éxito"
  /\ st = Sample.st_ana
  /\ data (fst (V1.login (H := Ref.bcrypt) (H0 := Ref.jwt) Sample.cfg st
                  Sample.good_login Sample.e0))
     = Session Sample.token
         (mkPublicUser "65a000000000000000000001" (Some "Ana") (Some "a@x.com"))
  /\ fst (V1.verify (H0 := Ref.jwt) Sample.cfg st
            (Sample.bearer Sample.token) Sample.e1)
     = mkResponse 200 true None
         (Account (mkPublicUser "65a000000000000000000001" (Some "Ana")
                     (Some "a@x.com"))).
Proof. vm_compute. repeat split. Qed.

(** * Further properties of the handlers *)

(** ** The Authorization header *)

Lemma split_first_word_cons (w rest : string) :
  no_space w = true ->
  split " " (w ++ String " " rest) = w :: split " " rest.
Proof.
  induction w as [|a r IH]; simpl; [reflexivity|].
  destruct (Ascii.eqb a " "); simpl; [discriminate|].
  intros Hr. rewrite (IH Hr). reflexivity.
Qed.

Lemma split_first_word (w rest : string) :
  no_space w = true ->
  split " " (w ++ " " ++ rest) = w :: split " " rest.
Proof. exact (split_first_word_cons w rest). Qed.

(** [h.split(' ')[1]] when [h] is a word, a space and more text: the
    text up to its first space. *)
Lemma second_word_of (w t rest : string) :
  no_space w = true -> no_space t = true ->
  nth_error (split " " (w ++ " " ++ t)) 1 = Some t
  /\ nth_error (split " " (w ++ " " ++ t ++ " " ++ rest)) 1 = Some t.
Proof.
  intros Hw Ht. rewrite !(split_first_word w _ Hw). split.
  - rewrite (split_no_space t Ht). reflexivity.
  - rewrite (split_first_word t rest Ht). reflexivity.
Qed.

Section Header.
Context `{Jwt}.
Variable cfg : Config.

(** What both variants do with the word they took from the header. *)
Lemma V1_authenticateToken_word (h t : string) (e : Env) :
  nth_error (split " " h) 1 = Some t ->
  V1.authenticateToken cfg (Some h) e =
    if truthy (Some t) then
      match jwt_verify t (cfg_secret cfg) (clock_s e) with
      | inl _ => Reject (failure 403 "Token inválido")
      | inr user => Next user
      end
    else Reject (failure 401 "Token requerido").
Proof.
  intros Hw. unfold V1.authenticateToken.
  rewrite (second_word_header h t Hw), Hw.
  destruct (truthy (Some t)); reflexivity.
Qed.

(** No token, no verification: without a header, with a header that has
    no space in it (a bare token, say), or with nothing between the
    first space and the next one or the end, both variants answer 401
    "Token requerido", whatever the header holds otherwise. *)
Theorem missing_token_is_401 (st : Store) (e : Env) (w rest : string) :
  no_space w = true ->
  (V1.authenticateToken cfg None e = Reject (failure 401 "Token requerido")
   /\ V2.verify cfg st None e = (failure 401 "Token requerido", st))
  /\ (V1.authenticateToken cfg (Some w) e
        = Reject (failure 401 "Token requerido")
      /\ V2.verify cfg st (Some w) e = (failure 401 "Token requerido", st))
  /\ (V1.authenticateToken cfg (Some (w ++ " ")) e
        = Reject (failure 401 "Token requerido")
      /\ V2.verify cfg st (Some (w ++ " ")) e
         = (failure 401 "Token requerido", st))
  /\ (V1.authenticateToken cfg (Some (w ++ "  " ++ rest)) e
        = Reject (failure 401 "Token requerido")
      /\ V2.verify cfg st (Some (w ++ "  " ++ rest)) e
         = (failure 401 "Token requerido", st)).
Proof.
  intros Hw. split; [split; reflexivity|]. split; [|split].
  - destruct w as [|a r]; [split; reflexivity|].
    unfold V1.authenticateToken, V2.verify.
    rewrite (split_no_space _ Hw). split; reflexivity.
  - assert (Hs : nth_error (split " " (w ++ " ")) 1 = Some "")
      by (rewrite (split_first_word_cons w "" Hw); reflexivity).
    rewrite (V1_authenticateToken_word _ _ e Hs).
    unfold V2.verify. rewrite Hs. split; reflexivity.
  - assert (Hs : nth_error (split " " (w ++ "  " ++ rest)) 1 = Some "").
    { change (w ++ "  " ++ rest) with (w ++ String " " (String " " rest)).
      rewrite (split_first_word_cons w _ Hw). reflexivity. }
    rewrite (V1_authenticateToken_word _ _ e Hs).
    unfold V2.verify. rewrite Hs. split; reflexivity.
Qed.

(** The scheme is not looked at: the word before the first space may be
    anything without a space, "Bearer" or not, and whatever follows a
    second space is dropped; the answer is the one for "Bearer <t>". *)
Theorem auth_scheme_is_ignored
    (st : Store) (e : Env) (w t rest : string) :
  no_space w = true -> no_space t = true ->
  V1.authenticateToken cfg (Some (w ++ " " ++ t)) e
    = V1.authenticateToken cfg (Some ("Bearer " ++ t)) e
  /\ V1.authenticateToken cfg (Some (w ++ " " ++ t ++ " " ++ rest)) e
     = V1.authenticateToken cfg (Some ("Bearer " ++ t)) e
  /\ V2.verify cfg st (Some (w ++ " " ++ t)) e
     = V2.verify cfg st (Some ("Bearer " ++ t)) e
  /\ V2.verify cfg st (Some (w ++ " " ++ t ++ " " ++ rest)) e
     = V2.verify cfg st (Some ("Bearer " ++ t)) e.
Proof.
  intros Hw Ht.
  destruct (second_word_of w t rest Hw Ht) as [H1 H2].
  pose proof (bearer_second_word t Ht) as Hb.
  rewrite (V1_authenticateToken_word _ _ e H1),
    (V1_authenticateToken_word _ _ e H2),
    (V1_authenticateToken_word _ _ e Hb).
  unfold V2.verify. rewrite H1, H2, Hb. repeat split.
Qed.


End Header.

Lemma missing_token_is_401_witness :
  no_space Sample.token = true
  /\ V1.authenticateToken (H0 := Ref.jwt) Sample.cfg (Some Sample.token)
       Sample.e1 = Reject (failure 401 "Token requerido")
  /\ V2.verify (H := Ref.jwt) Sample.cfg Sample.st_ana
       (Some ("Bearer  " ++ Sample.token)) Sample.e1
     = (failure 401 "Token requerido", Sample.st_ana).
Proof.
  assert (Hn : no_space Sample.token = true) by (vm_compute; reflexivity).
  split; [exact Hn|].
  pose proof (missing_token_is_401 (H := Ref.jwt) Sample.cfg Sample.st_ana
                Sample.e1 Sample.token "x" Hn) as (_ & [Hb _] & _).
  pose proof (missing_token_is_401 (H := Ref.jwt) Sample.cfg Sample.st_ana
                Sample.e1 "Bearer" Sample.token eq_refl) as (_ & _ & _ & [_ Hd]).
  split; [exact Hb|exact Hd].
Defined.

Lemma auth_scheme_is_ignored_witness :
  V1.authenticateToken (H0 := Ref.jwt) Sample.cfg
    (Some ("Basic " ++ Sample.token)) Sample.e1
  = V1.authenticateToken (H0 := Ref.jwt) Sample.cfg
      (Some ("Bearer " ++ Sample.token)) Sample.e1
  /\ V2.verify (H := Ref.jwt) Sample.cfg Sample.st_ana
       (Some ("Basic " ++ Sample.token ++ " " ++ "tail")) Sample.e1
     = V2.verify (H := Ref.jwt) Sample.cfg Sample.st_ana
         (Some ("Bearer " ++ Sample.token)) Sample.e1.
Proof.
  pose proof (auth_scheme_is_ignored (H := Ref.jwt) Sample.cfg Sample.st_ana
                Sample.e1 "Basic" Sample.token "tail" eq_refl
                ltac:(vm_compute; reflexivity)) as (H1 & _ & _ & H4).
  split; [exact H1|exact H4].
Defined.

(** ** Sessions *)

Lemma findById_In (st : Store) (u : User) :
  ids_unique st -> In u (users st) -> findById st (u_id u) = Some u.
Proof.
  unfold ids_unique, findById.
  induction (users st) as [|x t IH]; simpl; [contradiction|].
  intros Hnd Hin. inversion Hnd as [|? ? Hx Ht]; subst.
  destruct Hin as [->|Hin].
  - now rewrite String.eqb_refl.
  - destruct (String.eqb_spec (u_id x) (u_id u)) as [Heq|_].
    + exfalso. apply Hx. rewrite Heq. now apply in_map.
    + now apply IH.
Qed.

Section Sessions.
Context `{Jwt} `{!JwtLaws}.
Variable cfg : Config.

(** A token this server signed, sent as "Bearer <token>" before its
    expiry, passes the middleware with its payload. *)
Lemma V1_authenticateToken_signed
    (userId : ObjectId) (email : option string) (clock ttl : Z) (e' : Env) :
  clock_s e' < clock + ttl ->
  V1.authenticateToken cfg
    (Some ("Bearer " ++ jwt_sign userId email (cfg_secret cfg) clock ttl)) e'
  = Next (mkPayload userId email clock (clock + ttl)).
Proof.
  intros Hlt.
  set (t := jwt_sign _ _ _ _ _).
  rewrite (V1_authenticateToken_word cfg _ t e'
             (bearer_second_word t (encode_no_space _ _))).
  assert (Hne : truthy (Some t) = true)
    by (apply truthy_Some, encode_nonempty).
  rewrite Hne. unfold t. rewrite jwt_verify_sign by exact Hlt. reflexivity.
Qed.

Lemma V2_login_session
    (st : Store) (b : LoginBody) (e : Env) (token : string) (pu : PublicUser) :
  data (fst (V2.login cfg st b e)) = Session token pu ->
  exists u,
    In u (users st)
    /\ u_email u = lg_email b /\ u_password u = lg_password b
    /\ pu = public u
    /\ token = jwt_sign (u_id u) (u_email u) (cfg_secret cfg) (clock_s e)
                 expiresIn_24h.
Proof.
  unfold V2.login.
  destruct (findOne_email_password st (lg_email b) (lg_password b))
    as [u|] eqn:Hf; hsimpl; [|discriminate].
  intros [= <- <-]. exists u.
  unfold findOne_email_password in Hf. apply find_some in Hf as [Hin Hm].
  apply andb_prop in Hm as [He Hp].
  repeat split; auto; now apply opt_eqb_eq.
Qed.

(** Login, then verify: with ids unique in the store, the token of a
    successful login of variant 1, presented before its expiry, makes
    [/api/verify] answer 200 with the very user object the login
    returned (id, name, email; no password), and nothing is written. *)
Theorem V1_verify_after_login `{Bcrypt}
    (st : Store) (b : LoginBody) (e e' : Env)
    (token : string) (pu : PublicUser) :
  ids_unique st ->
  data (fst (V1.login cfg st b e)) = Session token pu ->
  clock_s e' < clock_s e + 86400 ->
  V1.verify cfg st (Some ("Bearer " ++ token)) e'
    = (mkResponse 200 true None (Account pu), st).
Proof.
  intros Hid Hl Hlt.
  destruct (V1_login_session cfg st b e token pu Hl)
    as (u & Hf & _ & -> & ->).
  unfold V1.verify.
  rewrite V1_authenticateToken_signed by exact Hlt. cbn [p_userId].
  unfold findOne_email in Hf. apply find_some in Hf as [Hin _].
  rewrite (findById_In st u Hid Hin). reflexivity.
Qed.

(** The same for variant 2, whose route verifies the token itself. *)
Theorem V2_verify_after_login
    (st : Store) (b : LoginBody) (e e' : Env)
    (token : string) (pu : PublicUser) :
  ids_unique st ->
  data (fst (V2.login cfg st b e)) = Session token pu ->
  clock_s e' < clock_s e + 86400 ->
  V2.verify cfg st (Some ("Bearer " ++ token)) e'
    = (mkResponse 200 true None (Account pu), st).
Proof.
  intros Hid Hl Hlt.
  destruct (V2_login_session st b e token pu Hl)
    as (u & Hin & _ & _ & -> & ->).
  set (t := jwt_sign _ _ _ _ _).
  unfold V2.verify, V2.verify_or_throw.
  rewrite (bearer_second_word t (encode_no_space _ _)).
  assert (Hne : truthy (Some t) = true)
    by (apply truthy_Some, encode_nonempty).
  rewrite Hne. hsimpl. unfold t.
  rewrite jwt_verify_sign by exact Hlt. hsimpl. cbn [p_userId].
  rewrite (findById_In st u Hid Hin). reflexivity.
Qed.
End Sessions.

Lemma V1_verify_after_login_witness :
  V1.verify (H0 := Ref.jwt) Sample.cfg Sample.st_ana
    (Some ("Bearer " ++ Sample.token)) Sample.e1
  = (mkResponse 200 true None
       (Account (mkPublicUser "65a000000000000000000001" (Some "Ana")
                   (Some "a@x.com"))), Sample.st_ana).
Proof.
  apply (V1_verify_after_login (H := Ref.jwt) (H0 := ref_jwt_laws)
           Sample.cfg (H1 := Ref.bcrypt) Sample.st_ana Sample.good_login
           Sample.e0 Sample.e1).
  - repeat constructor. simpl. tauto.
  - vm_compute. reflexivity.
  - vm_compute. reflexivity.
Defined.

Lemma V2_verify_after_login_witness :
  V2.verify (H := Ref.jwt) Sample.cfg Sample.st_ana_plain
    (Some ("Bearer " ++ Sample.token)) Sample.e1
  = (mkResponse 200 true None
       (Account (mkPublicUser "65a000000000000000000001" (Some "Ana")
                   (Some "a@x.com"))), Sample.st_ana_plain).
Proof.
  apply (V2_verify_after_login (H := Ref.jwt) (H0 := ref_jwt_laws)
           Sample.cfg Sample.st_ana_plain Sample.good_login
           Sample.e0 Sample.e1).
  - repeat constructor. simpl. tauto.
  - vm_compute. reflexivity.
  - vm_compute. reflexivity.
Defined.

(** ** Reads do not write *)

(** Neither login nor [/api/verify] changes the store, in either
    variant, whatever the request and whatever its outcome. *)
Theorem login_and_verify_never_write `{Bcrypt} `{Jwt}
    (cfg : Config) (st : Store) (b : LoginBody)
    (authorization : option string) (e : Env) :
  snd (V1.login cfg st b e) = st
  /\ snd (V2.login cfg st b e) = st
  /\ snd (V1.verify cfg st authorization e) = st
  /\ snd (V2.verify cfg st authorization e) = st.
Proof.
  repeat split.
  - unfold V1.login, V1.compare_password.
    destruct (truthy (lg_email b)), (truthy (lg_password b)); hsimpl;
      try reflexivity.
    destruct (findOne_email st (lg_email b)) as [u|]; hsimpl;
      [|reflexivity].
    destruct (lg_password b), (u_password u); hsimpl; try reflexivity.
    destruct (bcrypt_compare _ _); reflexivity.
  - unfold V2.login.
    destruct (findOne_email_password st _ _); reflexivity.
  - unfold V1.verify.
    destruct (V1.authenticateToken cfg authorization e); [reflexivity|].
    destruct (findById st _); reflexivity.
  - unfold V2.verify, V2.verify_or_throw.
    destruct authorization as [h|]; [|reflexivity].
    destruct (nth_error (split " " h) 1) as [t|]; [|reflexivity].
    destruct (truthy (Some t)); hsimpl; [|reflexivity].
    destruct (jwt_verify t _ _) as [[m|]|p]; hsimpl; try reflexivity.
    destruct (findById st _); reflexivity.
Qed.

(** ** What registration keeps *)

Lemma findOne_email_none_not_in (st : Store) (email : option string) :
  findOne_email st email = None -> ~ In email (map u_email (users st)).
Proof.
  unfold findOne_email. intros Hf Hin.
  apply in_map_iff in Hin as (u & Hu & Hin).
  pose proof (find_none _ _ Hf u Hin) as Hne. simpl in Hne.
  rewrite Hu, opt_eqb_refl in Hne. discriminate.
Qed.

Lemma emails_unique_add (st : Store) (u : User) :
  emails_unique st -> findOne_email st (u_email u) = None ->
  emails_unique (add_user st u).
Proof.
  unfold emails_unique, add_user. cbn [users]. intros Hnd Hf.
  rewrite map_app. apply NoDup_app; [exact Hnd|repeat constructor; auto|].
  intros a Ha [<-|[]]. exact (findOne_email_none_not_in st _ Hf Ha).
Qed.

Section RegistrationRuns.
Context `{Bcrypt}.

(** One request of variant 1 keeps the store well formed. *)
Lemma V1_register_keeps_store (st : Store) (b : RegisterBody) (e : Env) :
  emails_unique st /\ all_hashed st /\ Forall account_complete (users st) ->
  emails_unique (snd (V1.register st b e))
  /\ all_hashed (snd (V1.register st b e))
  /\ Forall account_complete (users (snd (V1.register st b e))).
Proof.
  intros (Hu & Hh & Hc).
  destruct (V1_register_cases st b e)
    as [[_ ->]|(secret & _ & Hn & He & _ & Hf & ->)]; [auto|].
  cbn [snd]. repeat split.
  - apply emails_unique_add; assumption.
  - unfold all_hashed, add_user. cbn [users].
    apply Forall_app. split; [exact Hh|].
    constructor; [|constructor]. simpl. eauto.
  - unfold add_user. cbn [users]. apply Forall_app. split; [exact Hc|].
    constructor; [|constructor]. split; assumption.
Qed.

(** Whatever registration requests variant 1 has served since the store
    was empty, good or bad, in any number: no two accounts share an
    email, every account has a non-empty name and email, and every
    password is a bcrypt hash at cost 10. *)
Theorem V1_registrations_keep_store (reqs : list (RegisterBody * Env)) :
  let st := V1_registrations empty_store reqs in
  emails_unique st /\ all_hashed st /\ Forall account_complete (users st).
Proof.
  cbv zeta.
  assert (Hgen : forall st,
             emails_unique st /\ all_hashed st
             /\ Forall account_complete (users st) ->
             emails_unique (V1_registrations st reqs)
             /\ all_hashed (V1_registrations st reqs)
             /\ Forall account_complete (users (V1_registrations st reqs))).
  { induction reqs as [|[b e] rest IH]; intros st Hst; [exact Hst|].
    simpl. apply IH, V1_register_keeps_store, Hst. }
  apply Hgen. repeat split; constructor.
Qed.

Context `{!BcryptLaws} `{Jwt}.
Variable cfg : Config.

(** Register, then log in: the account that a registration of variant 1
    created opens a session with the secret it registered, and the
    response carries the id, name and email of that account and a token
    for them; a secret that bcrypt does not match with the stored hash
    is answered 401. *)
Theorem V1_register_then_login
    (st : Store) (b : RegisterBody) (e e' : Env) (secret : string) :
  success (fst (V1.register st b e)) = true ->
  rg_password b = Some secret ->
  let st' := snd (V1.register st b e) in
  fst (V1.login cfg st' (mkLoginBody (rg_email b) (Some secret)) e')
    = mkResponse 200 true (Some "Login exitoso")
        (Session (jwt_sign (fresh_id e) (rg_email b) (cfg_secret cfg)
                    (clock_s e') expiresIn_24h)
                 (mkPublicUser (fresh_id e) (rg_name b) (rg_email b)))
  /\ (forall other,
        other <> "" ->
        bcrypt_compare other (bcrypt_hash secret 10 (salt e)) = false ->
        fst (V1.login cfg st' (mkLoginBody (rg_email b) (Some other)) e')
          = failure 401 "Credenciales inválidas").
Proof.
  intros Hs Hsec.
  destruct (V1_register_cases st b e)
    as [[Hf _]|(secret' & Hp & _ & He & Hpw & Hnone & Hr)]; [congruence|].
  assert (secret' = secret) by congruence. subst secret'.
  rewrite Hr. cbn [snd].
  set (u := mkUser _ _ _ _).
  assert (Hu : u_email u = rg_email b) by reflexivity.
  rewrite <- Hu in Hnone.
  destruct (count_email_add_fresh st u Hnone) as [_ Hfind].
  rewrite Hu in Hfind. rewrite Hsec in Hpw. split.
  - unfold V1.login, V1.compare_password. cbn [lg_email lg_password].
    rewrite He, Hpw, Hfind. hsimpl. cbn [u_password u].
    rewrite compare_hash. reflexivity.
  - intros other Hne Hc. apply truthy_Some in Hne.
    now rewrite (V1_login_wrong_secret cfg (add_user st u)
                   (mkLoginBody (rg_email b) (Some other)) e' u other _
                   He Hne Hfind eq_refl eq_refl Hc).
Qed.
End RegistrationRuns.

Lemma find_app_none {A} (f : A -> bool) (l l' : list A) :
  find f l = None -> find f (l ++ l') = find f l'.
Proof.
  induction l as [|x t IH]; simpl; [reflexivity|].
  destruct (f x); [discriminate|exact IH].
Qed.

(** Register, then log in, variant 2: the account opens a session with
    exactly the password it registered, compared as text, and with any
    other password the answer is 401. *)
Theorem V2_register_then_login `{Jwt}
    (cfg : Config) (st : Store) (b : RegisterBody) (e e' : Env)
    (email password : string) :
  rg_email b = Some email -> rg_password b = Some password ->
  success (fst (V2.register st b e)) = true ->
  let st' := snd (V2.register st b e) in
  fst (V2.login cfg st' (mkLoginBody (Some email) (Some password)) e')
    = mkResponse 200 true (Some "Login exitoso")
        (Session (jwt_sign (fresh_id e) (Some email) (cfg_secret cfg)
                    (clock_s e') expiresIn_24h)
                 (mkPublicUser (fresh_id e) (rg_name b) (Some email)))
  /\ (forall other,
        other <> password ->
        fst (V2.login cfg st' (mkLoginBody (Some email) (Some other)) e')
          = failure 401 "Credenciales inválidas").
Proof.
  intros He Hp Hs.
  destruct (V2_register_cases st b e) as [(u & _ & Hr)|[Hnone Hr]];
    rewrite Hr in Hs |- *; [discriminate|].
  cbn [snd]. rewrite He, Hp in *.
  unfold V2.login, findOne_email_password, add_user.
  cbn [users lg_email lg_password].
  assert (Hpre : forall pw,
             find (fun v => opt_eqb (u_email v) (Some email)
                            && opt_eqb (u_password v) pw) (users st) = None).
  { intros pw. exact (findOne_email_password_none st _ pw Hnone). }
  split.
  - rewrite (find_app_none _ _ _ (Hpre _)). simpl.
    rewrite !String.eqb_refl. reflexivity.
  - intros other Hne. rewrite (find_app_none _ _ _ (Hpre _)). simpl.
    rewrite String.eqb_refl. simpl.
    destruct (String.eqb_spec password other); [congruence|reflexivity].
Qed.

Lemma V1_register_then_login_witness :
  let st' := snd (V1.register (H := Ref.bcrypt) empty_store Sample.ana Sample.e0) in
  fst (V1.login (H := Ref.bcrypt) (H0 := Ref.jwt) Sample.cfg st'
         Sample.good_login Sample.e1)
    = mkResponse 200 true (Some "Login exitoso")
        (Session (jwt_sign (H := Ref.jwt) "65a000000000000000000001"
                    (Some "a@x.com") "s3cret" (clock_s Sample.e1) expiresIn_24h)
                 (mkPublicUser "65a000000000000000000001" (Some "Ana")
                    (Some "a@x.com")))
  /\ fst (V1.login (H := Ref.bcrypt) (H0 := Ref.jwt) Sample.cfg st'
            Sample.bad_login Sample.e1)
     = failure 401 "Credenciales inválidas".
Proof.
  destruct (V1_register_then_login (H := Ref.bcrypt) (H0 := ref_bcrypt_laws)
              (H1 := Ref.jwt) Sample.cfg empty_store Sample.ana
              Sample.e0 Sample.e1 "pw123" eq_refl eq_refl) as [Hgood Hbad].
  split; [exact Hgood|].
  apply (Hbad "pw124"); [discriminate|vm_compute; reflexivity].
Defined.

Lemma V2_register_then_login_witness :
  let st' := snd (V2.register empty_store Sample.ana Sample.e0) in
  fst (V2.login (H := Ref.jwt) Sample.cfg st' Sample.good_login Sample.e1)
    = mkResponse 200 true (Some "Login exitoso")
        (Session (jwt_sign (H := Ref.jwt) "65a000000000000000000001"
                    (Some "a@x.com") "s3cret" (clock_s Sample.e1) expiresIn_24h)
                 (mkPublicUser "65a000000000000000000001" (Some "Ana")
                    (Some "a@x.com")))
  /\ fst (V2.login (H := Ref.jwt) Sample.cfg st' Sample.bad_login Sample.e1)
     = failure 401 "Credenciales inválidas".
Proof.
  destruct (V2_register_then_login (H := Ref.jwt) Sample.cfg empty_store
              Sample.ana Sample.e0 Sample.e1 "a@x.com" "pw123"
              eq_refl eq_refl eq_refl) as [Hgood Hbad].
  split; [exact Hgood|]. apply (Hbad "pw124"). discriminate.
Defined.

(** ** Urgency in any letter case *)

Lemma lower_upper_char (a : ascii) : lower_char (upper_char a) = lower_char a.
Proof. destruct a as [[] [] [] [] [] [] [] []]; reflexivity. Qed.

Lemma lower_lower_char (a : ascii) : lower_char (lower_char a) = lower_char a.
Proof. destruct a as [[] [] [] [] [] [] [] []]; reflexivity. Qed.

Lemma upper_lower_char (a : ascii) : upper_char (lower_char a) = upper_char a.
Proof. destruct a as [[] [] [] [] [] [] [] []]; reflexivity. Qed.

Lemma toLowerCase_idem (s : string) :
  toLowerCase (toLowerCase s) = toLowerCase s.
Proof.
  unfold toLowerCase.
  induction s as [|a r IH]; cbn [map_string]; [reflexivity|].
  now rewrite lower_lower_char, IH.
Qed.

Lemma toLowerCase_app (s t : string) :
  toLowerCase (s ++ t) = toLowerCase s ++ toLowerCase t.
Proof.
  unfold toLowerCase.
  induction s as [|a r IH]; cbn [map_string append]; [reflexivity|].
  now rewrite IH.
Qed.

(** Normalizing forgets the letter case of its input and nothing else. *)
Lemma normalizeUrgency_lower (u : string) :
  toLowerCase (normalizeUrgency u) = toLowerCase u
  /\ normalizeUrgency (toLowerCase u) = normalizeUrgency u.
Proof.
  unfold normalizeUrgency. destruct u as [|a r]; [split; reflexivity|].
  split.
  - rewrite toLowerCase_app, toLowerCase_idem.
    unfold toLowerCase, toUpperCase. cbn [charAt0 slice1 map_string append].
    now rewrite lower_upper_char.
  - unfold toLowerCase at 1 3. cbn [map_string charAt0 slice1].
    unfold toUpperCase. cbn [map_string].
    rewrite upper_lower_char.
    change (map_string lower_char r) with (toLowerCase r).
    now rewrite toLowerCase_idem.
Qed.

(** The enum test on the normalized urgency is a test of the lower-case
    spelling. *)
Lemma includes_normalized (u : string) :
  includes validUrgencies (normalizeUrgency u)
  = includes lowerUrgencies (toLowerCase u).
Proof.
  destruct (normalizeUrgency_lower u) as [Hl Hn].
  assert (Hone : forall v,
             normalizeUrgency (toLowerCase v) = v ->
             String.eqb (normalizeUrgency u) v
             = String.eqb (toLowerCase u) (toLowerCase v)).
  { intros v Hv.
    destruct (String.eqb_spec (normalizeUrgency u) v) as [Heq|Hne];
      destruct (String.eqb_spec (toLowerCase u) (toLowerCase v)) as [Heq'|Hne'];
      try reflexivity; exfalso.
    - apply Hne'. rewrite <- Heq. symmetry. exact Hl.
    - apply Hne. rewrite <- Hn, Heq'. exact Hv. }
  unfold includes, validUrgencies, lowerUrgencies. cbn [existsb].
  rewrite (Hone "Baja" eq_refl), (Hone "Media" eq_refl),
    (Hone "Alta" eq_refl). reflexivity.
Qed.

(** Requests whose title, description, category and urgency are each a
    string or missing (a [ProblemBody]): such a report is accepted, by
    either variant, exactly when title, description and category are
    non-empty and the urgency, put in lower case, is "baja", "media" or
    "alta": the letter case of the urgency never matters.  Values of
    other JSON types are outside this statement. *)
Theorem createProblem_accepts_any_case
    (st : Store) (b : ProblemBody) (e : Env) :
  let accepted :=
    truthy (pr_title b) && truthy (pr_description b)
    && truthy (pr_category b)
    && match pr_urgency b with
       | Some u => includes lowerUrgencies (toLowerCase u)
       | None => false
       end in
  success (fst (V1.createProblem st b e)) = accepted
  /\ success (fst (V2.createProblem st b e)) = accepted.
Proof.
  cbv zeta. unfold V1.createProblem, V2.createProblem, save_problem.
  destruct (pr_urgency b) as [u|];
    [rewrite <- (includes_normalized u);
     destruct (includes validUrgencies (normalizeUrgency u)) eqn:Hin|];
    destruct (pr_title b) as [t|], (pr_description b) as [d|],
      (pr_category b) as [c|];
    cbn [truthy];
    repeat match goal with
           | |- context [String.eqb ?x ""] => destruct (String.eqb_spec x "")
           end;
    hsimpl; try rewrite Hin; try (subst u; discriminate Hin);
    split; reflexivity.
Qed.

Lemma includes_In (l : list string) (x : string) :
  includes l x = true -> In x l.
Proof.
  unfold includes. intros Hx.
  apply existsb_exists in Hx as (y & Hy & Heq).
  apply String.eqb_eq in Heq. now subst.
Qed.

(** The two variants side by side on one request: both refuse and write
    nothing, or both store the same report. *)
Lemma createProblem_cases (st : Store) (b : ProblemBody) (e : Env) :
  (V2.createProblem st b e = (failure 500 "No se pudo guardar el problema", st)
   /\ snd (V1.createProblem st b e) = st
   /\ success (fst (V1.createProblem st b e)) = false
   /\ status (fst (V1.createProblem st b e)) = 400)
  \/ (exists t d c u,
        t <> "" /\ d <> "" /\ c <> ""
        /\ includes validUrgencies (normalizeUrgency u) = true
        /\ V1.createProblem st b e =
             (ok 201 "Problema guardado exitosamente",
              mkStore (users st)
                (problems st ++ [mkProblem (fresh_id e) t d c
                                   (normalizeUrgency u) (now_ms e)])
                (reviews st))
        /\ V2.createProblem st b e = V1.createProblem st b e).
Proof.
  unfold V1.createProblem, V2.createProblem, save_problem.
  destruct (pr_urgency b) as [u|];
    [destruct (includes validUrgencies (normalizeUrgency u)) eqn:Hin|];
    destruct (pr_title b) as [t|], (pr_description b) as [d|],
      (pr_category b) as [c|];
    cbn [truthy];
    repeat match goal with
           | |- context [String.eqb ?x ""] => destruct (String.eqb_spec x "")
           end;
    hsimpl; try rewrite Hin; try (subst u; discriminate Hin); hsimpl;
    try (left; repeat split; reflexivity).
  right. exists t, d, c, u. repeat split; assumption.
Qed.

(** Requests whose title, description, category and urgency are each a
    string or missing (a [ProblemBody]): on such a request the two
    variants of [POST /api/problems] agree on acceptance and then give
    the same answer and store the same document; when they refuse,
    neither writes, variant 1 answering 400 and variant 2 answering
    500.  Values of other JSON types are outside this statement. *)
Theorem createProblem_variants_agree
    (st : Store) (b : ProblemBody) (e : Env) :
  snd (V1.createProblem st b e) = snd (V2.createProblem st b e)
  /\ success (fst (V1.createProblem st b e))
     = success (fst (V2.createProblem st b e))
  /\ (if success (fst (V1.createProblem st b e))
      then V1.createProblem st b e = V2.createProblem st b e
      else snd (V1.createProblem st b e) = st
           /\ status (fst (V1.createProblem st b e)) = 400
           /\ status (fst (V2.createProblem st b e)) = 500).
Proof.
  destruct (createProblem_cases st b e)
    as [(H2 & H1 & Hs & Hc)|(t & d & c & u & _ & _ & _ & _ & H1 & H2)].
  - rewrite H2, H1, Hs, Hc. repeat split.
  - rewrite H2, H1. repeat split.
Qed.

(** Every report either variant stores has a non-empty title,
    description and category and one of the three urgencies, written
    "Baja", "Media" or "Alta"; the other collections are not touched. *)
Theorem createProblem_keeps_problems_valid
    (st : Store) (b : ProblemBody) (e : Env) :
  Forall problem_valid (problems st) ->
  Forall problem_valid (problems (snd (V1.createProblem st b e)))
  /\ Forall problem_valid (problems (snd (V2.createProblem st b e)))
  /\ users (snd (V1.createProblem st b e)) = users st
  /\ reviews (snd (V1.createProblem st b e)) = reviews st
  /\ users (snd (V2.createProblem st b e)) = users st
  /\ reviews (snd (V2.createProblem st b e)) = reviews st.
Proof.
  intros Hst.
  destruct (createProblem_cases st b e)
    as [(H2 & H1 & _)|(t & d & c & u & Ht & Hd & Hc & Hin & H1 & H2)].
  - rewrite H2, H1. repeat split; exact Hst.
  - rewrite H2, H1. cbn [snd problems users reviews].
    assert (Hall : Forall problem_valid
                     (problems st ++ [mkProblem (fresh_id e) t d c
                                        (normalizeUrgency u) (now_ms e)])).
    { apply Forall_app. split; [exact Hst|].
      constructor; [|constructor].
      unfold problem_valid. cbn [pb_title pb_description pb_category pb_urgency].
      auto using includes_In. }
    repeat split; exact Hall.
Qed.

Lemma createProblem_keeps_problems_valid_witness :
  Forall problem_valid
    (problems (snd (V1.createProblem empty_store Sample.alta Sample.e0)))
  /\ Forall problem_valid
       (problems (snd (V2.createProblem empty_store Sample.urgente Sample.e0))).
Proof.
  pose proof (createProblem_keeps_problems_valid empty_store Sample.alta
                Sample.e0 (Forall_nil _)) as (H1 & _).
  pose proof (createProblem_keeps_problems_valid empty_store Sample.urgente
                Sample.e0 (Forall_nil _)) as (_ & H2 & _).
  split; [exact H1|exact H2].
Defined.

(** ** Reviews, created and listed *)

Section ReviewsCreated.
Context `{Mongoose}.

(** The outcomes of [createReview] in variant 1: a refusal, 400 from the
    presence check or 500 from the schema, that writes nothing; or 201
    with one review appended, built from the request. *)
Lemma V1_createReview_cases (st : Store) (b : ReviewBody) (e : Env) :
  (success (fst (V1.createReview st b e)) = false
   /\ (status (fst (V1.createReview st b e)) = 400
       \/ status (fst (V1.createReview st b e)) = 500)
   /\ (forall rv, data (fst (V1.createReview st b e)) <> OneReview rv)
   /\ snd (V1.createReview st b e) = st)
  \/ (exists rv uid pd,
        V1.createReview st b e =
          (mkResponse 201 true (Some "Reseña creada con éxito") (OneReview rv),
           mkStore (users st) (problems st) (reviews st ++ [rv]))
        /\ rv_id rv = fresh_id e /\ rv_date rv = now_ms e
        /\ 1 <= rv_rating rv <= 5
        /\ rb_rating b = Some (rv_rating rv)
        /\ rb_userId b = Some uid /\ cast_objectid uid = Some (rv_userId rv)
        /\ rb_problemDate b = Some pd
        /\ cast_date pd = Some (rv_problemDate rv)
        /\ rb_userName b = Some (rv_userName rv)
        /\ rb_comment b = Some (rv_comment rv)
        /\ rb_problemDescription b = Some (rv_problemDescription rv)
        /\ rb_toolsUsed b = Some (rv_toolsUsed rv)).
Proof.
  unfold V1.createReview, save_review.
  field (rb_userId b) uid;
    try (left; repeat split; auto; discriminate).
  field (rb_userName b) un;
    try (left; repeat split; auto; discriminate).
  destruct (rb_rating b) as [r|]; hsimpl;
    [destruct (Z.eqb_spec r 0); hsimpl|];
    try (left; repeat split; auto; discriminate).
  field (rb_comment b) c;
    try (left; repeat split; auto; discriminate).
  field (rb_problemDate b) pd;
    try (left; repeat split; auto; discriminate).
  field (rb_problemDescription b) pdesc;
    try (left; repeat split; auto; discriminate).
  field (rb_toolsUsed b) tu;
    try (left; repeat split; auto; discriminate).
  destruct (cast_objectid uid) as [oid|] eqn:Ho,
    (cast_date pd) as [d|] eqn:Hdt;
    hsimpl; try (left; repeat split; auto; discriminate).
  destruct (Z.leb_spec 1 r), (Z.leb_spec r 5);
    hsimpl; try (left; repeat split; auto; discriminate).
  right. eexists _, uid, pd. repeat split; cbn; auto.
Qed.

(** Every review variant 1 stores has a rating from 1 to 5, and a
    request cannot set the [date] of a review: it is the server's clock
    at the request.  A refused request writes nothing, and the accounts
    and problem reports are never touched. *)
Theorem V1_createReview_keeps_ratings_in_range
    (st : Store) (b : ReviewBody) (e : Env) :
  Forall (fun rv => 1 <= rv_rating rv <= 5) (reviews st) ->
  let st' := snd (V1.createReview st b e) in
  Forall (fun rv => 1 <= rv_rating rv <= 5) (reviews st')
  /\ users st' = users st /\ problems st' = problems st
  /\ (success (fst (V1.createReview st b e)) = false -> st' = st)
  /\ (forall rv, data (fst (V1.createReview st b e)) = OneReview rv ->
        rv_date rv = now_ms e /\ reviews st' = (reviews st ++ [rv])%list).
Proof.
  intros Hst.
  destruct (V1_createReview_cases st b e)
    as [(Hs & _ & Hd & Hsame)|(rv & uid & pd & Hr & _ & Hdate & Hrange & _)];
    cbv zeta.
  - rewrite Hsame. split; [exact Hst|].
    do 2 (split; [reflexivity|]). split; [reflexivity|].
    intros x Hx. destruct (Hd x Hx).
  - rewrite Hr. cbn [fst snd users problems reviews success data].
    split.
    { apply Forall_app. split; [exact Hst|].
      constructor; [exact Hrange|constructor]. }
    do 2 (split; [reflexivity|]). split; [discriminate|].
    intros x [= <-]. split; [exact Hdate|reflexivity].
Qed.

Lemma sort_date_desc_latest (l : list Review) (r : Review) :
  Forall (fun x => rv_date x < rv_date r) l ->
  sort_date_desc (l ++ [r]) = r :: sort_date_desc l.
Proof.
  induction 1 as [|x t Hx Ht IH]; simpl; [reflexivity|].
  rewrite IH. simpl.
  destruct (Z.leb_spec (rv_date r) (rv_date x)); [lia|reflexivity].
Qed.

(** Create, then list: when the server's clock is past the dates of the
    stored reviews, the review just created comes first in
    [GET /api/reviews], in front of the list as it was before. *)
Theorem new_review_is_listed_first
    (st : Store) (b : ReviewBody) (e : Env) (rv : Review) :
  data (fst (V1.createReview st b e)) = OneReview rv ->
  Forall (fun x => rv_date x < now_ms e) (reviews st) ->
  exists before,
    data (fst (V1.listReviews st)) = Reviews before
    /\ data (fst (V1.listReviews (snd (V1.createReview st b e))))
       = Reviews (rv :: before)
    /\ data (fst (V2.listReviews (snd (V1.createReview st b e))))
       = Reviews (rv :: before).
Proof.
  intros Hd Hold.
  destruct (V1_createReview_cases st b e)
    as [(_ & _ & Hno & _)|(rv' & uid & pd & Hr & _ & Hdate & _)].
  - destruct (Hno rv Hd).
  - rewrite Hr in Hd |- *. cbn [fst data] in Hd. injection Hd as ->.
    exists (find_reviews_sorted st).
    unfold V1.listReviews, V2.listReviews, find_reviews_sorted.
    cbn [try_catch ret fst snd data reviews].
    rewrite sort_date_desc_latest; [repeat split|].
    rewrite Hdate. exact Hold.
Qed.
End ReviewsCreated.

Lemma V1_createReview_keeps_ratings_in_range_witness :
  Forall (fun rv => 1 <= rv_rating rv <= 5)
    (reviews (snd (V1.createReview (H1 := Ref.mongoose) Sample.st_ana
                     More.review_three Sample.e0)))
  /\ snd (V1.createReview (H1 := Ref.mongoose) Sample.st_ana
            Sample.review_zero Sample.e0) = Sample.st_ana.
Proof.
  pose proof (V1_createReview_keeps_ratings_in_range (H := Ref.mongoose)
                Sample.st_ana More.review_three Sample.e0 (Forall_nil _))
    as (H1 & _).
  pose proof (V1_createReview_keeps_ratings_in_range (H := Ref.mongoose)
                Sample.st_ana Sample.review_zero Sample.e0 (Forall_nil _))
    as (_ & _ & _ & H2 & _).
  split; [exact H1|exact (H2 eq_refl)].
Defined.

Lemma new_review_is_listed_first_witness :
  exists before,
    data (fst (V1.listReviews More.st_reviewed)) = Reviews before
    /\ data (fst (V1.listReviews
                    (snd (V1.createReview (H1 := Ref.mongoose) More.st_reviewed
                            More.review_three Sample.e1))))
       = Reviews (More.rv_new :: before)
    /\ data (fst (V2.listReviews
                    (snd (V1.createReview (H1 := Ref.mongoose) More.st_reviewed
                            More.review_three Sample.e1))))
       = Reviews (More.rv_new :: before).
Proof.
  apply (new_review_is_listed_first (H := Ref.mongoose) More.st_reviewed
           More.review_three Sample.e1 More.rv_new).
  - vm_compute. reflexivity.
  - constructor; [reflexivity|constructor].
Defined.

(** ** A listening server is configured *)

(** Whichever variant reached [listen], its signing secret and its
    connection string are not empty, the connection string is the one of
    the environment, and the port is the one of the environment or, when
    [PORT] is unset or empty, 3000. *)
Theorem listening_config_is_complete (env : ProcessEnv) (c : Config) :
  V1.startup env = Listening c \/ V2.startup env = Listening c ->
  cfg_secret c <> "" /\ cfg_mongo_uri c <> ""
  /\ MONGO_URI env = Some (cfg_mongo_uri c)
  /\ cfg_port c <> ""
  /\ (if truthy (PORT env) then PORT env = Some (cfg_port c)
      else cfg_port c = "3000").
Proof.
  unfold V1.startup, V2.startup, or_default.
  destruct (JWT_SECRET env) as [k|], (MONGO_URI env) as [m|],
    (PORT env) as [p|]; cbn [truthy];
    repeat match goal with
           | |- context [String.eqb ?x ""] => destruct (String.eqb_spec x "")
           end;
    cbn [negb orb]; intros [Hx|Hx]; try discriminate Hx;
    injection Hx as <-; cbn [cfg_secret cfg_mongo_uri cfg_port];
    repeat split; auto; discriminate.
Qed.

Lemma listening_config_is_complete_witness :
  cfg_secret (mkConfig "fallback_secret" "mongodb://localhost/tech" "8080") <> ""
  /\ V2.startup More.penv_v2
     = Listening (mkConfig "fallback_secret" "mongodb://localhost/tech" "8080").
Proof.
  assert (Hl : V2.startup More.penv_v2
               = Listening (mkConfig "fallback_secret"
                              "mongodb://localhost/tech" "8080"))
    by reflexivity.
  split; [|exact Hl].
  exact (proj1 (listening_config_is_complete More.penv_v2 _ (or_intror Hl))).
Defined.

(** * Values of any JSON type *)

(** ** Login with a secret that is not a string *)

Section DynamicLogin.
Context `{Bcrypt} `{Jwt} `{FilterCast} `{!FilterCastLaws}.
Variable cfg : Config.

(** On a body whose fields are strings or missing, the login of
    variant 1 on JSON values is the login on the string-typed body. *)
Lemma DynV1_login_strings (st : Store) (b : LoginBody) (e : Env) :
  DynV1.login cfg st
    (mkLoginRequest (js_of_field (lg_email b)) (js_of_field (lg_password b))) e
  = V1.login cfg st b e.
Proof.
  unfold DynV1.login, V1.login, DynV1.compare_password, V1.compare_password,
    findOne_email.
  cbn [lq_email lq_password].
  destruct (lg_email b) as [em|], (lg_password b) as [pw|];
    cbn [js_of_field js_truthy truthy]; try reflexivity.
  - destruct (String.eqb em ""), (String.eqb pw ""); hsimpl; try reflexivity.
    rewrite email_filter_string. hsimpl.
    destruct (find _ (users st)) as [u|]; reflexivity.
  - destruct (String.eqb em ""); reflexivity.
Qed.

(** A truthy secret that is not a string (a number, [true], an object)
    with a string identity: 401 when the store does not hold the
    identity; 500 when it does, for [bcrypt.compare] rejects its
    arguments and the catch answers. *)
Lemma DynV1_login_non_string_secret
    (st_absent st_known : Store) (email : string) (secret : JsValue)
    (e e' : Env) (u : User) :
  email <> "" -> js_truthy secret = true ->
  (forall s, secret <> JStr s) ->
  findOne_email st_absent (Some email) = None ->
  findOne_email st_known (Some email) = Some u ->
  DynV1.login cfg st_absent (mkLoginRequest (JStr email) secret) e
    = (failure 401 "Credenciales inválidas", st_absent)
  /\ DynV1.login cfg st_known (mkLoginRequest (JStr email) secret) e'
     = (failure 500 "Error interno del servidor", st_known).
Proof.
  intros He Ht Hns Ha Hk. apply truthy_Some in He. cbn [truthy] in He.
  unfold DynV1.login, DynV1.compare_password. cbn [lq_email lq_password js_truthy].
  rewrite He, Ht, email_filter_string. hsimpl.
  unfold findOne_email in Ha, Hk. rewrite Ha, Hk. split; [reflexivity|].
  destruct secret; try reflexivity. destruct (Hns s eq_refl).
Qed.
End DynamicLogin.

Lemma ref_filter_cast_laws : @FilterCastLaws RefCast.filter_cast.
Proof. split. reflexivity. Qed.

(** C2, at the failing input: the body is
    [{ email: "a@x.com", password: 123 }].  When no account has that
    email, variant 1 answers 401 "Credenciales inválidas"; when Ana's
    account has it, [bcrypt.compare(123, hash)] rejects and the answer
    is 500 "Error interno del servidor".  The two failures differ, so
    the response tells whether the identity exists. *)
Theorem V1_login_numeric_password_tells_identity :
  @DynV1.login Ref.bcrypt Ref.jwt RefCast.filter_cast Sample.cfg
     empty_store RefCast.numeric_login Sample.e0
    = (failure 401 "Credenciales inválidas", empty_store)
  /\ @DynV1.login Ref.bcrypt Ref.jwt RefCast.filter_cast Sample.cfg
       Sample.st_ana RefCast.numeric_login Sample.e0
     = (failure 500 "Error interno del servidor", Sample.st_ana).
Proof.
  refine (DynV1_login_non_string_secret (H := Ref.bcrypt) (H0 := Ref.jwt)
            (H1 := RefCast.filter_cast) (H2 := ref_filter_cast_laws)
            Sample.cfg empty_store Sample.st_ana "a@x.com" (JNum 123)
            Sample.e0 Sample.e0 _ _ _ _ eq_refl eq_refl);
    [discriminate|reflexivity|discriminate].
Qed.

(** ** Verify with an id that is not an ObjectId *)

Section DynamicVerify.
Context `{Jwt} `{Mongoose}.
Variable cfg : Config.

(** With a caster that takes every id as it is, the routes with the
    cast are the routes without it. *)
Lemma Dyn_verify_cast_free
    (st : Store) (authorization : option string) (e : Env) :
  (forall id, cast_objectid id = Some id) ->
  DynV1.verify cfg st authorization e = V1.verify cfg st authorization e
  /\ DynV2.verify cfg st authorization e = V2.verify cfg st authorization e.
Proof.
  intros Hc. unfold DynV1.verify, V1.verify, DynV2.verify, V2.verify,
    DynV1.findById.
  split.
  - destruct (V1.authenticateToken cfg authorization e); [reflexivity|].
    rewrite Hc. reflexivity.
  - destruct authorization as [h|]; [|reflexivity].
    destruct (nth_error (split " " h) 1) as [t|]; [|reflexivity].
    destruct (truthy (Some t)); hsimpl; [|reflexivity].
    destruct (V2.verify_or_throw cfg t e) as [m|p]; hsimpl; [reflexivity|].
    rewrite Hc. reflexivity.
Qed.

(** A token that verifies but names no account: when its [userId] is
    not an ObjectId, [findById] throws a CastError and both routes
    answer 401 "Token inválido" from their catch; when it is an ObjectId
    that no account has, both answer 404 "Usuario no encontrado".  The
    store is left as it was. *)
Theorem verified_token_without_account
    (st : Store) (h t : string) (p : Payload) (e : Env) :
  nth_error (split " " h) 1 = Some t -> t <> "" ->
  jwt_verify t (cfg_secret cfg) (clock_s e) = inr p ->
  (cast_objectid (p_userId p) = None ->
     DynV1.verify cfg st (Some h) e = (failure 401 "Token inválido", st)
     /\ DynV2.verify cfg st (Some h) e = (failure 401 "Token inválido", st))
  /\ (forall oid,
        cast_objectid (p_userId p) = Some oid -> findById st oid = None ->
        DynV1.verify cfg st (Some h) e
          = (failure 404 "Usuario no encontrado", st)
        /\ DynV2.verify cfg st (Some h) e
           = (failure 404 "Usuario no encontrado", st)).
Proof.
  intros Hw Ht Hv. apply truthy_Some in Ht.
  assert (H1 : V1.authenticateToken cfg (Some h) e = Next p)
    by (rewrite (V1_authenticateToken_word cfg h t e Hw), Ht, Hv; reflexivity).
  assert (H2 : V2.verify_or_throw cfg t e = ret p)
    by (unfold V2.verify_or_throw; rewrite Hv; reflexivity).
  unfold DynV1.verify, DynV2.verify, DynV1.findById.
  rewrite H1, Hw, Ht. hsimpl. rewrite H2. hsimpl. split.
  - intros ->. split; reflexivity.
  - intros oid -> ->. split; reflexivity.
Qed.
End DynamicVerify.

Lemma verified_token_without_account_witness :
  (@DynV1.verify Ref.jwt Ref.mongoose Sample.cfg Sample.st_ana
     (Some ("Bearer " ++ RefCast.token_abc)) Sample.e1
   = (failure 401 "Token inválido", Sample.st_ana)
   /\ @DynV2.verify Ref.jwt Ref.mongoose Sample.cfg Sample.st_ana
        (Some ("Bearer " ++ RefCast.token_abc)) Sample.e1
      = (failure 401 "Token inválido", Sample.st_ana))
  /\ (@DynV1.verify Ref.jwt Ref.mongoose Sample.cfg Sample.st_ana
        (Some ("Bearer " ++ RefCast.token_gone)) Sample.e1
      = (failure 404 "Usuario no encontrado", Sample.st_ana)
      /\ @DynV2.verify Ref.jwt Ref.mongoose Sample.cfg Sample.st_ana
           (Some ("Bearer " ++ RefCast.token_gone)) Sample.e1
         = (failure 404 "Usuario no encontrado", Sample.st_ana)).
Proof.
  split.
  - refine (proj1 (verified_token_without_account (H := Ref.jwt)
                     (H0 := Ref.mongoose) Sample.cfg Sample.st_ana
                     ("Bearer " ++ RefCast.token_abc) RefCast.token_abc
                     (mkPayload "abc" (Some "a@x.com") 1700000000 1700086400)
                     Sample.e1 _ _ _) _);
      first [vm_compute; reflexivity | vm_compute; discriminate].
  - refine (proj2 (verified_token_without_account (H := Ref.jwt)
                     (H0 := Ref.mongoose) Sample.cfg Sample.st_ana
                     ("Bearer " ++ RefCast.token_gone) RefCast.token_gone
                     (mkPayload "65a0000000000000000000ff" (Some "a@x.com")
                        1700000000 1700086400)
                     Sample.e1 _ _ _) "65a0000000000000000000ff" _ _);
      first [vm_compute; reflexivity | vm_compute; discriminate].
Defined.
